(** * riscvlib: device tree and boot banner generation for OpenPiton+Ariane

    A shallow embedding of [piton/tools/bin/riscvlib.py]: the register
    field formatter [_reg_fmt], the device tree builder [gen_riscv_dts]
    and the boot banner builder [get_bootrom_info], with the properties
    of the generated texts.

    Python integers are [Z]; strings are [string]; [os.environ] is a
    [gmap string string]; an exception is a value of [exn] carried by
    [result].  Float arithmetic follows IEEE 754 binary64 through the
    Standard Library's [SpecFloat]. *)

From Stdlib Require Import ZArith List Ascii Bool Lia.
From Stdlib Require String.
From Stdlib Require Import Floats.SpecFloat.
From stdpp Require Import base strings gmap.
Import ListNotations.

Local Open Scope Z_scope.

(* Let [simpl] compute the concatenation of literals. *)
#[local] Arguments String.append !s1 s2 : simpl nomatch.

(** ** Exceptions *)

Inductive exn : Type :=
| AssertionError
| KeyError (key : string)
| ValueError
| OverflowError
| ZeroDivisionError.

Inductive result (A : Type) : Type :=
| Ok (a : A)
| Raise (e : exn).

Arguments Ok {A} a.
Arguments Raise {A} e.

#[global] Instance result_ret : MRet result := fun A a => Ok a.

#[global] Instance result_bind : MBind result := fun A B k r =>
  match r with
  | Ok a => k a
  | Raise e => Raise e
  end.

(** [assert c] *)
Definition assert (c : bool) : result unit :=
  if c then Ok tt else Raise AssertionError.

(** ** Characters and text *)

Definition LF : ascii := "010"%char.
Definition SP : ascii := " "%char.
Definition nl : string := String LF EmptyString.
Definition dq : string := String "034"%char EmptyString.

(** [q s] is [s] between double quotes. *)
Definition q (s : string) : string := dq +:+ s +:+ dq.

(** A template literal is written as the list of its lines; [text]
    joins them with line feeds. *)
Definition text (ls : list string) : string := String.concat nl ls.

(** [split c s]: the segments of [s] between occurrences of [c]. *)
Fixpoint split (c : ascii) (s : string) : list string :=
  match s with
  | EmptyString => [EmptyString]
  | String a s' =>
      if Ascii.eqb a c then EmptyString :: split c s'
      else match split c s' with
           | [] => [String a EmptyString]
           | h :: t => String a h :: t
           end
  end.

Definition lines (s : string) : list string := split LF s.

Definition nonempty (s : string) : bool :=
  match s with EmptyString => false | String _ _ => true end.

(** [tokens s]: the maximal runs of non-space characters of [s]. *)
Definition tokens (s : string) : list string :=
  List.filter nonempty (split SP s).

Fixpoint forallb_string (p : ascii -> bool) (s : string) : bool :=
  match s with
  | EmptyString => true
  | String a s' => p a && forallb_string p s'
  end.

(** [s] has no occurrence of [c]. *)
Definition free_of (c : ascii) (s : string) : bool :=
  forallb_string (fun a => negb (Ascii.eqb a c)) s.

Fixpoint repeat_char (c : ascii) (n : nat) : string :=
  match n with
  | O => EmptyString
  | S n' => String c (repeat_char c n')
  end.

(** Left padding to a minimal width, as a [%Nd] or [%0Nx] directive does. *)
Definition lpad (c : ascii) (width : nat) (s : string) : string :=
  repeat_char c (width - String.length s) +:+ s.

(** ** Number formatting *)

(** Digits of [n >= 0] in base [b], most significant first. *)
Fixpoint digits_fuel (b : Z) (fuel : nat) (n : Z) (acc : list Z) : list Z :=
  match fuel with
  | O => acc
  | S f =>
      if n <? b then n :: acc
      else digits_fuel b f (n / b) (n mod b :: acc)
  end.

Definition to_digits (b : Z) (n : Z) : list Z :=
  digits_fuel b (S (Z.to_nat (Z.log2 n))) n [].

(** One more digit [d] after the digits of value [a]. *)
Definition shift_in (b a d : Z) : Z := a * b + d.

Definition of_digits (b : Z) (ds : list Z) : Z := fold_left (shift_in b) ds 0.

Definition digit_char (d : Z) : ascii :=
  if d <? 10 then ascii_of_nat (Z.to_nat (48 + d))
  else ascii_of_nat (Z.to_nat (87 + d)).

Definition char_digit (c : ascii) : option Z :=
  let n := Z.of_nat (nat_of_ascii c) in
  if (48 <=? n) && (n <=? 57) then Some (n - 48)
  else if (97 <=? n) && (n <=? 102) then Some (n - 87)
  else None.

Definition is_hex_digit (c : ascii) : bool :=
  match char_digit c with Some _ => true | None => false end.

Fixpoint string_of_digits (ds : list Z) : string :=
  match ds with
  | [] => EmptyString
  | d :: r => String (digit_char d) (string_of_digits r)
  end.

(** Value of a digit string in base [b]; [None] on a non-digit. *)
Fixpoint parse_digits (b : Z) (acc : Z) (s : string) : option Z :=
  match s with
  | EmptyString => Some acc
  | String c s' =>
      match char_digit c with
      | Some d => if d <? b then parse_digits b (acc * b + d) s' else None
      | None => None
      end
  end.

Definition render (b : Z) (n : Z) : string := string_of_digits (to_digits b n).

(** ["%d" % n] *)
Definition fmt_d (n : Z) : string :=
  if n <? 0 then "-" +:+ render 10 (- n) else render 10 n.

(** ["%3d" % n] *)
Definition fmt_3d (n : Z) : string := lpad SP 3 (fmt_d n).

(** ["%08x" % n]: the sign counts in the width. *)
Definition fmt_08x (n : Z) : string :=
  if n <? 0 then "-" +:+ lpad "0" 7 (render 16 (- n))
  else lpad "0" 8 (render 16 n).

(** ** [_reg_fmt]: format reg leaf entry *)

Definition _reg_fmt (addrBase addrLen addrCells sizeCells : Z) : result string :=
  _ ← assert ((addrCells >=? 1) || (addrCells <=? 2));
  _ ← assert ((sizeCells >=? 0) || (sizeCells <=? 2));
  let tmpStr := " " in
  let tmpStr :=
    if addrCells >=? 2
    then tmpStr +:+ ("0x" +:+ fmt_08x (Z.shiftr addrBase 32) +:+ " ")
    else tmpStr in
  let tmpStr :=
    if addrCells >=? 1
    then tmpStr +:+ ("0x" +:+ fmt_08x (Z.land addrBase 0xFFFFFFFF) +:+ " ")
    else tmpStr in
  let tmpStr :=
    if sizeCells >=? 2
    then tmpStr +:+ ("0x" +:+ fmt_08x (Z.shiftr addrLen 32) +:+ " ")
    else tmpStr in
  let tmpStr :=
    if sizeCells >=? 1
    then tmpStr +:+ ("0x" +:+ fmt_08x (Z.land addrLen 0xFFFFFFFF) +:+ " ")
    else tmpStr in
  Ok tmpStr.

(** ** [gen_riscv_dts] *)

(** An entry of the device list read from the devices XML file: a dict
    with the keys [name], [base] and [length]. *)
Module Device.
Record t : Type := { name : string; base : Z; length : Z }.
End Device.

(** [range(n)] *)
Definition range (n : Z) : list Z := List.map Z.of_nat (seq 0 (Z.to_nat n)).

(** [for x in l: s = body(s, x)], stopping at the first exception. *)
Fixpoint for_each {S A : Type} (body : S -> A -> result S) (l : list A) (s : S)
  : result S :=
  match l with
  | [] => Ok s
  | x :: r => s' ← body s x; for_each body r s'
  end.

(** *** The template literals, line by line *)

Definition dts_header (timeStamp : string) (timeBaseFreq : Z) : list string :=
    [ "// DTS generated with gen_riscv_dts(...)";
      "// OpenPiton + Ariane framework";
      "// Date: " +:+ timeStamp;
      EmptyString;
      "/dts-v1/;";
      EmptyString;
      "/ {";
      "    #address-cells = <2>;";
      "    #size-cells = <2>;";
      "    u-boot,dm-pre-reloc;";
      "    compatible = " +:+ q "openpiton,cva6platform" +:+ ";";
      EmptyString;
      "    chosen {";
      "    u-boot,dm-pre-reloc;";
      "    stdout-path = " +:+ q "uart0:115200" +:+ ";";
      "    };";
      EmptyString;
      "    aliases {";
      "        u-boot,dm-pre-reloc;";
      "        console = &uart0;";
      "        serial0 = &uart0;";
      "    };";
      EmptyString;
      "    cpus {";
      "        #address-cells = <1>;";
      "        #size-cells = <0>;";
      "        u-boot,dm-pre-reloc;";
      "        timebase-frequency = <" +:+ fmt_d timeBaseFreq +:+ ">;";
      "    " ].

Definition cpu_node (cpuFreq k : Z) : list string :=
    [ EmptyString;
      "        CPU" +:+ fmt_d k +:+ ": cpu@" +:+ fmt_d k +:+ " {";
      "            clock-frequency = <" +:+ fmt_d cpuFreq +:+ ">;";
      "            u-boot,dm-pre-reloc;";
      "            device_type = " +:+ q "cpu" +:+ ";";
      "            reg = <" +:+ fmt_d k +:+ ">;";
      "            status = " +:+ q "okay" +:+ ";";
      "            compatible = " +:+ q "openhwgroup, cva6" +:+ ", " +:+ q "riscv" +:+ ";";
      "            riscv,isa = " +:+ q "rv64imafdc" +:+ ";";
      "            mmu-type = " +:+ q "riscv,sv39" +:+ ";";
      "            tlb-split;";
      "            // HLIC - hart local interrupt controller";
      "            CPU" +:+ fmt_d k +:+ "_intc: interrupt-controller {";
      "                #interrupt-cells = <1>;";
      "                interrupt-controller;";
      "                compatible = " +:+ q "riscv,cpu-intc" +:+ ";";
      "            };";
      "        };";
      "        " ].

Definition cpus_close : list string :=
    [ EmptyString;
      "    };";
      "    " ].

Definition memory_node (addrBase : Z) (reg : string) : list string :=
    [ EmptyString;
      "    memory@" +:+ fmt_08x addrBase +:+ " {";
      "        u-boot,dm-pre-reloc;";
      "        device_type = " +:+ q "memory" +:+ ";";
      "        reg = <" +:+ reg +:+ ">;";
      "    };";
      "            " ].

Definition clint_open (addrBase : Z) : list string :=
    [ EmptyString;
      "        clint@" +:+ fmt_08x addrBase +:+ " {";
      "            u-boot,dm-pre-reloc;";
      "            compatible = " +:+ q "riscv,clint0" +:+ ";";
      "            interrupts-extended = <" ].

Definition clint_irq (k : Z) : string :=
  "&CPU" +:+ fmt_d k +:+ "_intc 3 &CPU" +:+ fmt_d k +:+ "_intc 7 ".

Definition clint_close (reg : string) : list string :=
    [ ">;";
      "            reg = <" +:+ reg +:+ ">;";
      "            reg-names = " +:+ q "control" +:+ ";";
      "        };";
      "            " ].

Definition plic_open (addrBase : Z) : list string :=
    [ EmptyString;
      "        PLIC0: plic@" +:+ fmt_08x addrBase +:+ " {";
      "            u-boot,dm-pre-reloc;";
      "            #address-cells = <0>;";
      "            #interrupt-cells = <1>;";
      "            compatible = " +:+ q "riscv,plic0" +:+ ";";
      "            interrupt-controller;";
      "            interrupts-extended = <" ].

Definition plic_irq (k : Z) : string :=
  "&CPU" +:+ fmt_d k +:+ "_intc 11 &CPU" +:+ fmt_d k +:+ "_intc 9 ".

Definition plic_close (reg : string) (numIrqs : Z) : list string :=
    [ ">;";
      "            reg = <" +:+ reg +:+ ">;";
      "            riscv,max-priority = <7>;";
      "            riscv,ndev = <" +:+ fmt_d numIrqs +:+ ">;";
      "        };";
      "            " ].

Definition uart_node (addrBase : Z) (reg : string) (periphFreq ioDeviceNr : Z)
  : list string :=
    [ EmptyString;
      "        uart0: uart@" +:+ fmt_08x addrBase +:+ " {";
      "            u-boot,dm-pre-reloc;";
      "            compatible = " +:+ q "ns16550" +:+ ";";
      "            reg = <" +:+ reg +:+ ">;";
      "            clock-frequency = <" +:+ fmt_d periphFreq +:+ ">;";
      "            current-speed = <115200>;";
      "            interrupt-parent = <&PLIC0>;";
      "            interrupts = <" +:+ fmt_d ioDeviceNr +:+ ">;";
      "            reg-shift = <0>; // regs are spaced on 8 bit boundary (modified from Xilinx UART16550 to be ns16550 compatible)";
      "        };";
      "            " ].

Definition sd_node (addrBase : Z) (reg : string) : list string :=
    [ EmptyString;
      "        sdhci_0: sdhci@" +:+ fmt_08x addrBase +:+ " {";
      "            u-boot,dm-pre-reloc;";
      "            status = " +:+ q "okay" +:+ ";";
      "            compatible = " +:+ q "openpiton,piton-mmc" +:+ ";";
      "            reg = <" +:+ reg +:+ ">;";
      "        };";
      "            " ].

Definition net_node (addrBase : Z) (reg : string) (ioDeviceNr : Z) : list string :=
    [ EmptyString;
      "        eth: ethernet@" +:+ fmt_08x addrBase +:+ " {";
      "            compatible = " +:+ q "xlnx,xps-ethernetlite-1.00.a" +:+ ";";
      "            device_type = " +:+ q "network" +:+ ";";
      "            reg = <" +:+ reg +:+ ">;";
      "            interrupt-parent = <&PLIC0>;";
      "            interrupts = <" +:+ fmt_d ioDeviceNr +:+ ">;";
      "            local-mac-address = [ 00 18 3E 02 E3 E5 ];";
      "            phy-handle = <&phy0>;";
      "            xlnx,duplex = <0x1>;";
      "            xlnx,include-global-buffers = <0x1>;";
      "            xlnx,include-internal-loopback = <0x0>;";
      "            xlnx,include-mdio = <0x1>;";
      "            xlnx,rx-ping-pong = <0x1>;";
      "            xlnx,s-axi-id-width = <0x1>;";
      "            xlnx,tx-ping-pong = <0x1>;";
      "            xlnx,use-internal = <0x0>;";
      "            axi_ethernetlite_0_mdio: mdio {";
      "                #address-cells = <1>;";
      "                #size-cells = <0>;";
      "                phy0: phy@1 {";
      "                    compatible = " +:+ q "ethernet-phy-id001C.C915" +:+ ";";
      "                    device_type = " +:+ q "ethernet-phy" +:+ ";";
      "                    reg = <1>;";
      "                };";
      "            };";
      "        };";
      "            " ].

Definition root_close : list string :=
    [ EmptyString;
      "};";
      "    " ].

(** *** The passes over the device list *)

Definition named (n : string) (d : Device.t) : bool :=
  String.eqb (Device.name d) n.

(** get UART base *)
Definition scan_uartBase (devices : list Device.t) : Z :=
  fold_left (fun uartBase d => if named "uart" d then Device.base d else uartBase)
            devices 0xDEADBEEF.

(** [for k in range(nCpus)] over the CPU node template *)
Definition emit_cpus (nCpus cpuFreq : Z) (tmpStr : string) : string :=
  fold_left (fun s k => s +:+ text (cpu_node cpuFreq k)) (range nCpus) tmpStr.

(** only get main memory ranges here *)
Definition emit_memory (tmpStr : string) (d : Device.t) : result string :=
  if named "mem" d then
    let addrBase := Device.base d in
    let addrLen := Device.length d in
    reg ← _reg_fmt addrBase addrLen 2 2;
    Ok (tmpStr +:+ text (memory_node addrBase reg))
  else Ok tmpStr.

Definition devWithIrq : list string := ["uart"; "net"].

Definition name_in (ns : list string) (d : Device.t) : bool :=
  existsb (String.eqb (Device.name d)) ns.

(** get the number of interrupt sources *)
Definition count_irqs (devices : list Device.t) : Z :=
  fold_left (fun numIrqs d => if name_in devWithIrq d then numIrqs + 1 else numIrqs)
            devices 0.

Definition emit_clint (nCpus : Z) (d : Device.t) (tmpStr : string) : result string :=
  let addrBase := Device.base d in
  let addrLen := Device.length d in
  let tmpStr := tmpStr +:+ text (clint_open addrBase) in
  let tmpStr := fold_left (fun s k => s +:+ clint_irq k) (range nCpus) tmpStr in
  reg ← _reg_fmt addrBase addrLen 2 2;
  Ok (tmpStr +:+ text (clint_close reg)).

Definition emit_plic (nCpus numIrqs : Z) (d : Device.t) (tmpStr : string)
  : result string :=
  let addrBase := Device.base d in
  let addrLen := Device.length d in
  let tmpStr := tmpStr +:+ text (plic_open addrBase) in
  let tmpStr := fold_left (fun s k => s +:+ plic_irq k) (range nCpus) tmpStr in
  reg ← _reg_fmt addrBase addrLen 2 2;
  Ok (tmpStr +:+ text (plic_close reg numIrqs)).

Definition emit_uart (periphFreq ioDeviceNr : Z) (d : Device.t) (tmpStr : string)
  : result string :=
  let addrBase := Device.base d in
  let addrLen := Device.length d in
  reg ← _reg_fmt addrBase addrLen 2 2;
  Ok (tmpStr +:+ text (uart_node addrBase reg periphFreq ioDeviceNr)).

Definition emit_sd (d : Device.t) (tmpStr : string) : result string :=
  let addrBase := Device.base d in
  let addrLen := Device.length d in
  reg ← _reg_fmt addrBase addrLen 2 2;
  Ok (tmpStr +:+ text (sd_node addrBase reg)).

Definition emit_net (ioDeviceNr : Z) (d : Device.t) (tmpStr : string) : result string :=
  let addrBase := Device.base d in
  let addrLen := Device.length d in
  reg ← _reg_fmt addrBase addrLen 2 2;
  Ok (tmpStr +:+ text (net_node addrBase reg ioDeviceNr)).

(** get the remaining periphs: the body of the loop, on the pair
    [(tmpStr, ioDeviceNr)]. *)
Definition periph_body (nCpus periphFreq numIrqs : Z)
    (st : string * Z) (d : Device.t) : result (string * Z) :=
  let '(tmpStr, ioDeviceNr) := st in
  tmpStr ← (if named "ariane_clint" d then emit_clint nCpus d tmpStr else Ok tmpStr);
  tmpStr ← (if named "ariane_plic" d then emit_plic nCpus numIrqs d tmpStr
            else Ok tmpStr);
  st ← (if named "uart" d
        then tmpStr ← emit_uart periphFreq ioDeviceNr d tmpStr;
             Ok (tmpStr, ioDeviceNr + 1)
        else Ok (tmpStr, ioDeviceNr));
  let '(tmpStr, ioDeviceNr) := st in
  tmpStr ← (if named "sd" d then emit_sd d tmpStr else Ok tmpStr);
  if named "net" d
  then tmpStr ← emit_net ioDeviceNr d tmpStr;
       Ok (tmpStr, ioDeviceNr + 1)
  else Ok (tmpStr, ioDeviceNr).

(** The local variables of [gen_riscv_dts] when it reaches its last
    assertion. *)
Record dts_locals : Type := {
  uartBase : Z;
  tmpStr : string;
  numIrqs : Z;
  ioDeviceNr : Z
}.

Definition dts_run (devices : list Device.t)
    (nCpus cpuFreq timeBaseFreq periphFreq : Z) (timeStamp : string)
  : result dts_locals :=
  _ ← assert (nCpus >=? 1);
  let uartBase := scan_uartBase devices in
  let tmpStr := text (dts_header timeStamp timeBaseFreq) in
  let tmpStr := emit_cpus nCpus cpuFreq tmpStr in
  let tmpStr := tmpStr +:+ text cpus_close in
  tmpStr ← for_each emit_memory devices tmpStr;
  let numIrqs := count_irqs devices in
  let ioDeviceNr := 1 in
  st ← for_each (periph_body nCpus periphFreq numIrqs) devices (tmpStr, ioDeviceNr);
  let '(tmpStr, ioDeviceNr) := st in
  let tmpStr := tmpStr +:+ text root_close in
  Ok {| uartBase := uartBase; tmpStr := tmpStr;
        numIrqs := numIrqs; ioDeviceNr := ioDeviceNr |}.

(** [gen_riscv_dts]: the text written to [rv64_platform.dts]. *)
Definition gen_riscv_dts (devices : list Device.t)
    (nCpus cpuFreq timeBaseFreq periphFreq : Z) (timeStamp : string)
  : result string :=
  st ← dts_run devices nCpus cpuFreq timeBaseFreq periphFreq timeStamp;
  (* this needs to match *)
  _ ← assert (ioDeviceNr st - 1 =? numIrqs st);
  Ok (tmpStr st).

(** ** Floats (IEEE 754 binary64) *)

Definition prec : Z := 53.
Definition emax : Z := 1024.

Definition is_zero (f : spec_float) : bool :=
  match f with S754_zero _ => true | _ => false end.

(** [float(n)] for an int [n]: rounded to nearest, ties to even. *)
Definition float_of_int (n : Z) : result spec_float :=
  match binary_normalize prec emax n 0 false with
  | S754_infinity _ => Raise OverflowError
  | f => Ok f
  end.

(** [a / b] for ints: the correctly rounded quotient. *)
Definition int_truediv (a b : Z) : result spec_float :=
  if b =? 0 then Raise ZeroDivisionError
  else
    let sign := xorb (a <? 0) (b <? 0) in
    let '(mz, ez, lz) := SFdiv_core_binary prec emax (Z.abs a) 0 (Z.abs b) 0 in
    match binary_round_aux prec emax sign mz ez lz with
    | S754_infinity _ => Raise OverflowError
    | f => Ok f
    end.

(** [x / y] for floats. *)
Definition float_truediv (x y : spec_float) : result spec_float :=
  if is_zero y then Raise ZeroDivisionError else Ok (SFdiv prec emax x y).

(** [x / n] for a float [x] and an int [n]. *)
Definition float_div_int (x : spec_float) (n : Z) : result spec_float :=
  y ← float_of_int n; float_truediv x y.

(** [int(x)] for a float [x]: truncation towards zero. *)
Definition int_of_float (x : spec_float) : result Z :=
  match x with
  | S754_zero _ => Ok 0
  | S754_finite s m e =>
      let a := if e >=? 0 then Z.pos m * 2 ^ e else Z.pos m / 2 ^ (- e) in
      Ok (if s then - a else a)
  | S754_infinity _ => Raise OverflowError
  | S754_nan => Raise ValueError
  end.

(** ** [get_bootrom_info] *)

(** [int(memLen/1024/1024)] *)
Definition dram_mb (memLen : Z) : result Z :=
  x ← int_truediv memLen 1024;
  y ← float_div_int x 1024;
  int_of_float y.

(** get length of memory *)
Definition scan_memLen (devices : list Device.t) : Z :=
  fold_left (fun memLen d => if named "mem" d then Device.length d else memLen)
            devices 0.

Definition environ_get (environ : gmap string string) (key : string) : result string :=
  match environ !! key with
  | Some v => Ok v
  | None => Raise (KeyError key)
  end.

Definition banner (timeStamp ver_p ver_a boardName : string)
    (x_tiles y_tiles num_tiles : Z) (sysFreq network : string) (dram : Z)
    (l1i_kb l1i_assoc l1d_kb l1d_assoc l15_kb l15_assoc l2_kb l2_assoc : Z)
  : list string :=
    [ "// Info string generated with get_bootrom_info(...)";
      "// OpenPiton + Ariane framework";
      "// Date: " +:+ timeStamp;
      EmptyString;
      "const char info[] = {";
      q "\r\n\r\n";
      q "----------------------------------------\r\n";
      q "--     OpenPiton+Ariane Platform      --\r\n";
      q "----------------------------------------\r\n";
      dq +:+ "OpenPiton Version: " +:+ ver_p +:+ "                   \r\n" +:+ dq;
      dq +:+ "Ariane Version:    " +:+ ver_a +:+ "                   \r\n" +:+ dq;
      q "                                        \r\n";
      dq +:+ "FPGA Board:        " +:+ boardName +:+ "                   \r\n" +:+ dq;
      dq +:+ "Build Date:        " +:+ timeStamp +:+ "                   \r\n" +:+ dq;
      q "                                        \r\n";
      dq +:+ "#X-Tiles:          " +:+ fmt_d x_tiles +:+ "                   \r\n" +:+ dq;
      dq +:+ "#Y-Tiles:          " +:+ fmt_d y_tiles +:+ "                   \r\n" +:+ dq;
      dq +:+ "#Cores:            " +:+ fmt_d num_tiles +:+ "                   \r\n" +:+ dq;
      dq +:+ "Core Freq:         " +:+ sysFreq +:+ "                   \r\n" +:+ dq;
      dq +:+ "Network:           " +:+ network +:+ "                   \r\n" +:+ dq;
      dq +:+ "DRAM Size:         " +:+ fmt_d dram +:+ " MB                \r\n" +:+ dq;
      q "                                        \r\n";
      dq +:+ "L1I Size / Assoc:  " +:+ fmt_3d l1i_kb +:+ " kB / " +:+ fmt_d l1i_assoc +:+ "          \r\n" +:+ dq;
      dq +:+ "L1D Size / Assoc:  " +:+ fmt_3d l1d_kb +:+ " kB / " +:+ fmt_d l1d_assoc +:+ "          \r\n" +:+ dq;
      dq +:+ "L15 Size / Assoc:  " +:+ fmt_3d l15_kb +:+ " kB / " +:+ fmt_d l15_assoc +:+ "          \r\n" +:+ dq;
      dq +:+ "L2  Size / Assoc:  " +:+ fmt_3d l2_kb +:+ " kB / " +:+ fmt_d l2_assoc +:+ "          \r\n" +:+ dq;
      q "----------------------------------------\r\n\r\n\r\n";
      "};";
      EmptyString;
      EmptyString ].

Definition gitver_cmd : string :=
  "git log | grep commit -m1 | LD_LIBRARY_PATH= awk -e '{print $2;}'".

Definition placeholder : string := "None (Simulation)".

Section Bootrom.
(** What the interpreter and the shell provide. *)

(** [subprocess.check_output([cmd], shell=True)]: the bytes the
    command prints. *)
Variable check_output : string -> result string.
(** [int(s)] for a str [s]. *)
Variable py_int : string -> result Z.
(** ["%s" % b] for a bytes object [b]. *)
Variable str_of_bytes : string -> string.

(** The label of the system frequency. *)
Definition sysFreq_label (environ : gmap string string) : result string :=
  match environ !! "CONFIG_SYS_FREQ" with
  | Some sysFreq =>
      n ← py_int sysFreq;
      x ← float_of_int n;
      mega ← float_of_int 1000000;
      y ← float_truediv x mega;
      mhz ← int_of_float y;
      Ok (fmt_d mhz +:+ " MHz")
  | None => Ok "Unknown"
  end.

Definition board_name (environ : gmap string string) : string :=
  match environ !! "PROTOSYN_RUNTIME_BOARD" with
  | Some boardName => if nonempty boardName then boardName else placeholder
  | None => placeholder
  end.

(** [int(os.environ[key])] *)
Definition environ_int (environ : gmap string string) (key : string) : result Z :=
  v ← environ_get environ key; py_int v.

(** [int(os.environ[key])/1024] *)
Definition environ_kb (environ : gmap string string) (key : string)
  : result spec_float :=
  n ← environ_int environ key; int_truediv n 1024.

(** [get_bootrom_info]: the text written to [info.h]. *)
Definition get_bootrom_info (devices : list Device.t)
    (environ : gmap string string) (timeStamp : string) : result string :=
  piton_ver ← check_output gitver_cmd;
  root ← environ_get environ "ARIANE_ROOT";
  ariane_ver ← check_output ("cd " +:+ root +:+ " && " +:+ gitver_cmd);
  let memLen := scan_memLen devices in
  let boardName := board_name environ in
  sysFreq ← sysFreq_label environ;
  x_tiles ← environ_int environ "PITON_X_TILES";
  y_tiles ← environ_int environ "PITON_Y_TILES";
  num_tiles ← environ_int environ "PITON_NUM_TILES";
  network ← environ_get environ "PITON_NETWORK_CONFIG";
  dram ← dram_mb memLen;
  l1i ← environ_kb environ "CONFIG_L1I_SIZE";
  l1i_assoc ← environ_int environ "CONFIG_L1I_ASSOCIATIVITY";
  l1d ← environ_kb environ "CONFIG_L1D_SIZE";
  l1d_assoc ← environ_int environ "CONFIG_L1D_ASSOCIATIVITY";
  l15 ← environ_kb environ "CONFIG_L15_SIZE";
  l15_assoc ← environ_int environ "CONFIG_L15_ASSOCIATIVITY";
  l2 ← environ_kb environ "CONFIG_L2_SIZE";
  l2_assoc ← environ_int environ "CONFIG_L2_ASSOCIATIVITY";
  l1i_kb ← int_of_float l1i;
  l1d_kb ← int_of_float l1d;
  l15_kb ← int_of_float l15;
  l2_kb ← int_of_float l2;
  Ok (text (banner timeStamp
              (str_of_bytes (String.substring 0 8 piton_ver))
              (str_of_bytes (String.substring 0 8 ariane_ver))
              boardName x_tiles y_tiles num_tiles sysFreq network dram
              l1i_kb l1i_assoc l1d_kb l1d_assoc l15_kb l15_assoc l2_kb l2_assoc)).
End Bootrom.

(** An interpreter model to run [get_bootrom_info] on examples: [int]
    of a string of decimal digits, and the [b'...'] form of printable
    bytes. *)
Definition int_of_decimal (s : string) : result Z :=
  match s with
  | EmptyString => Raise ValueError
  | _ => match parse_digits 10 0 s with
         | Some n => Ok n
         | None => Raise ValueError
         end
  end.

Definition bytes_literal (b : string) : string := "b'" +:+ b +:+ "'".

(** ** Observations on a generated text *)

(** [contains s t]: [s] occurs in [t]. *)
Definition contains (s t : string) : Prop :=
  exists pre post, t = pre +:+ s +:+ post.

(** [s.startswith(p)] *)
Fixpoint starts_with (p s : string) : bool :=
  match p with
  | EmptyString => true
  | String a p' =>
      match s with
      | EmptyString => false
      | String b s' => Ascii.eqb a b && starts_with p' s'
      end
  end.

(** Occurrence test, character by character. *)
Fixpoint occurs (s t : string) : bool :=
  starts_with s t ||
  match t with
  | EmptyString => false
  | String _ t' => occurs s t'
  end.

(** Neither a space nor any other white space. *)
Definition plain (c : ascii) : bool := negb (Ascii.is_space c).

(** [d] is a digit in base [b]. *)
Definition digit_ok (b d : Z) : Prop := 0 <= d < b.

(** ** Observations on the register field *)

(** A cell as [_reg_fmt] prints it. *)
Definition cell (v : Z) : string := "0x" +:+ fmt_08x v.

(** The cell values [_reg_fmt] prints, in order. *)
Definition reg_cells (addrBase addrLen addrCells sizeCells : Z) : list Z :=
  ((if addrCells >=? 2 then [Z.shiftr addrBase 32] else []) ++
   (if addrCells >=? 1 then [Z.land addrBase 0xFFFFFFFF] else []) ++
   (if sizeCells >=? 2 then [Z.shiftr addrLen 32] else []) ++
   (if sizeCells >=? 1 then [Z.land addrLen 0xFFFFFFFF] else []))%list.

(** Every item followed by one space. *)
Definition spaced (ts : list string) : string :=
  fold_right (fun t r => t +:+ " " +:+ r) EmptyString ts.

(** The value of a cell token: [0x] and exactly eight hexadecimal
    digits; [None] for any other token. *)
Definition cell_value (t : string) : option Z :=
  match t with
  | String "0" (String "x" ds) =>
      if (String.length ds =? 8)%nat && forallb_string is_hex_digit ds
      then parse_digits 16 0 ds
      else None
  | _ => None
  end.

(** The cells of a register field as the specification lists them:
    upper and lower halves of the base, then of the length. *)
Definition spec_cells (base length addressCells sizeCells : Z) : list Z :=
  ((if addressCells =? 2 then [base / 2 ^ 32] else []) ++
   (if addressCells >=? 1 then [base mod 2 ^ 32] else []) ++
   (if sizeCells =? 2 then [length / 2 ^ 32] else []) ++
   (if sizeCells >=? 1 then [length mod 2 ^ 32] else []))%list.

(** A token: not empty and without white space. *)
Definition is_token (t : string) : bool := nonempty t && forallb_string plain t.

(** ** The device tree, line by line *)

(** The register field of a device's node: [_reg_fmt(base, length, 2, 2)]. *)
Definition reg_field (d : Device.t) : string :=
  " " +:+ spaced (List.map cell (reg_cells (Device.base d) (Device.length d) 2 2)).

(** The interrupt routing of a controller node: one item per core. *)
Definition routing (irq : Z -> string) (nCpus : Z) : string :=
  fold_right (fun k r => irq k +:+ r) EmptyString (range nCpus).

(** A template that is opened, continued on its last line by [mid], and
    closed by a second template starting on that same line. *)
Definition joined (open : list string) (mid : string) (close : list string)
  : list string :=
  (removelast open ++
   [List.last open EmptyString +:+ mid +:+ hd EmptyString close] ++
   tail close)%list.

Definition cpu_lines (cpuFreq k : Z) : list string := tail (cpu_node cpuFreq k).

Definition mem_lines (d : Device.t) : list string :=
  if named "mem" d then tail (memory_node (Device.base d) (reg_field d)) else [].

Definition clint_lines (nCpus : Z) (d : Device.t) : list string :=
  tail (joined (clint_open (Device.base d)) (routing clint_irq nCpus)
               (clint_close (reg_field d))).

Definition plic_lines (nCpus numIrqs : Z) (d : Device.t) : list string :=
  tail (joined (plic_open (Device.base d)) (routing plic_irq nCpus)
               (plic_close (reg_field d) numIrqs)).

(** The lines one device adds in the peripheral pass when the interrupt
    counter is [nr]. *)
Definition dev_lines (nCpus periphFreq numIrqs nr : Z) (d : Device.t) : list string :=
  ((if named "ariane_clint" d then clint_lines nCpus d else []) ++
   (if named "ariane_plic" d then plic_lines nCpus numIrqs d else []) ++
   (if named "uart" d
    then tail (uart_node (Device.base d) (reg_field d) periphFreq nr) else []) ++
   (if named "sd" d then tail (sd_node (Device.base d) (reg_field d)) else []) ++
   (if named "net" d
    then tail (net_node (Device.base d) (reg_field d)
                        (if named "uart" d then nr + 1 else nr))
    else []))%list.

(** The interrupt counter after a device. *)
Definition next_nr (nr : Z) (d : Device.t) : Z :=
  let nr := if named "uart" d then nr + 1 else nr in
  if named "net" d then nr + 1 else nr.

(** Every device with the value of the interrupt counter when the
    peripheral pass reaches it. *)
Fixpoint number (devices : list Device.t) (nr : Z) : list (Device.t * Z) :=
  match devices with
  | [] => []
  | d :: r => (d, nr) :: number r (next_nr nr d)
  end.

Definition periph_lines (nCpus periphFreq numIrqs : Z) (numbered : list (Device.t * Z))
  : list string :=
  flat_map (fun dn => dev_lines nCpus periphFreq numIrqs (snd dn) (fst dn)) numbered.

Definition dts_lines (devices : list Device.t)
    (nCpus cpuFreq timeBaseFreq periphFreq : Z) (timeStamp : string) : list string :=
  (dts_header timeStamp timeBaseFreq ++
   flat_map (cpu_lines cpuFreq) (range nCpus) ++
   tail cpus_close ++
   flat_map mem_lines devices ++
   periph_lines nCpus periphFreq (count_irqs devices) (number devices 1) ++
   tail root_close)%list.

(** *** Kinds of lines *)

Definition is_cpu_header : string -> bool := starts_with "        CPU".
Definition is_routing : string -> bool :=
  starts_with "            interrupts-extended = <".
Definition is_memory_header : string -> bool := starts_with "    memory@".
Definition is_memory_reg : string -> bool := starts_with "        reg = <".
Definition is_plic_header : string -> bool := starts_with "        PLIC0: plic@".
Definition is_uart_header : string -> bool := starts_with "        uart0: uart@".
Definition is_eth_header : string -> bool := starts_with "        eth: ethernet@".
Definition is_interrupts : string -> bool := starts_with "            interrupts = <".
Definition is_interrupt_parent : string -> bool :=
  String.eqb "            interrupt-parent = <&PLIC0>;".

(** The lines of a text that satisfy [p], in order. *)
Definition select (p : string -> bool) (doc : string) : list string :=
  List.filter p (lines doc).

(** *** Node headers and interrupt lines *)

Definition cpu_header (k : Z) : string :=
  "        CPU" +:+ fmt_d k +:+ ": cpu@" +:+ fmt_d k +:+ " {".

(** The routing line of a controller node, from the item printed per core. *)
Definition routing_line (irq : Z -> string) (nCpus : Z) : string :=
  "            interrupts-extended = <" +:+ routing irq nCpus +:+ ">;".

(** The reference to the interrupt controller of core [k]. *)
Definition intc_ref (k : Z) : string := "&CPU" +:+ fmt_d k +:+ "_intc".

(** A routing field as a list of tokens: per core, in ascending order,
    the core's controller with line [a], then with line [b]. *)
Definition routing_tokens (a b : string) (nCpus : Z) : list string :=
  flat_map (fun k => [intc_ref k; a; intc_ref k; b]) (range nCpus).

(** [s] without its first [n] characters. *)
Fixpoint drop_chars (n : nat) (s : string) : string :=
  match n, s with
  | O, _ => s
  | S n', String _ s' => drop_chars n' s'
  | S _, EmptyString => EmptyString
  end.

(** The tokens of the routing field of a routing line: what stands
    between [interrupts-extended = <] and the closing [>;]. *)
Definition routing_field (l : string) : list string :=
  removelast
    (tokens (drop_chars (String.length "            interrupts-extended = <") l)).

Definition memory_header (d : Device.t) : string :=
  "    memory@" +:+ fmt_08x (Device.base d) +:+ " {".

Definition memory_reg (reg : string) : string := "        reg = <" +:+ reg +:+ ">;".

Definition uart_header (d : Device.t) : string :=
  "        uart0: uart@" +:+ fmt_08x (Device.base d) +:+ " {".

Definition eth_header (d : Device.t) : string :=
  "        eth: ethernet@" +:+ fmt_08x (Device.base d) +:+ " {".

Definition plic_header (d : Device.t) : string :=
  "        PLIC0: plic@" +:+ fmt_08x (Device.base d) +:+ " {".

Definition interrupt_parent : string := "            interrupt-parent = <&PLIC0>;".

Definition interrupts_line (nr : Z) : string :=
  "            interrupts = <" +:+ fmt_d nr +:+ ">;".

(** The header of a node with an interrupt, its [interrupt-parent] and
    its [interrupts] lines. *)
Definition is_irq_line (l : string) : bool :=
  is_uart_header l || is_eth_header l || is_interrupt_parent l || is_interrupts l.

Definition irq_node_header (d : Device.t) : string :=
  if named "uart" d then uart_header d else eth_header d.

(** ** Example inventories *)

Definition dev (name : string) (base length : Z) : Device.t :=
  {| Device.name := name; Device.base := base; Device.length := length |}.

Definition example_devices : list Device.t :=
  [ dev "mem" 0x80000000 0x20000000;
    dev "uart" 0xfff0c2c000 0x1000;
    dev "ariane_clint" 0xfff1020000 0xc0000;
    dev "ariane_plic" 0xfff1100000 0x4000000;
    dev "sd" 0xf000000000 0x1000000000;
    dev "net" 0xfff0d00000 0x100000 ].

Definition example_no_plic : list Device.t :=
  [ dev "mem" 0x80000000 0x20000000;
    dev "net" 0xfff0d00000 0x100000;
    dev "uart" 0xfff0c2c000 0x1000 ].

Definition example_no_uart : list Device.t :=
  [ dev "mem" 0x80000000 0x20000000;
    dev "ariane_clint" 0xfff1020000 0xc0000 ].

Definition example_two_mem : list Device.t :=
  [ dev "mem" 0x80000000 0x20000000;
    dev "mem" 0xc0000000 0x10000000 ].

Definition example_timeStamp : string := "Nov 03 2026 10:00:00".

(** ** Example environment *)

Definition example_environ : gmap string string :=
  list_to_map
    [ ("ARIANE_ROOT", "/openpiton/piton/design/chip/tile/ariane");
      ("PITON_X_TILES", "1");
      ("PITON_Y_TILES", "1");
      ("PITON_NUM_TILES", "1");
      ("PITON_NETWORK_CONFIG", "xbar_config");
      ("CONFIG_L1I_SIZE", "16384");
      ("CONFIG_L1I_ASSOCIATIVITY", "4");
      ("CONFIG_L1D_SIZE", "8192");
      ("CONFIG_L1D_ASSOCIATIVITY", "4");
      ("CONFIG_L15_SIZE", "8192");
      ("CONFIG_L15_ASSOCIATIVITY", "4");
      ("CONFIG_L2_SIZE", "65536");
      ("CONFIG_L2_ASSOCIATIVITY", "4") ].

(** A shell in which every command prints the same commit hash. *)
Definition example_check_output (cmd : string) : result string :=
  Ok "0123456789abcdef0123456789abcdef01234567".

(** An inventory whose memory has the largest 64-bit length. *)
Definition example_huge_mem : list Device.t :=
  [ dev "mem" 0x80000000 0xFFFFFFFFFFFFFFFF ].

(** ** Well-formed inputs of [get_bootrom_info] *)

(** [int(os.environ[key])] is an integer. *)
Definition int_setting (py_int : string -> result Z)
    (environ : gmap string string) (key : string) : Prop :=
  exists n, environ_int py_int environ key = Ok n.

(** [int(os.environ[key])] is a size in bytes that a float holds exactly. *)
Definition size_setting (py_int : string -> result Z)
    (environ : gmap string string) (key : string) : Prop :=
  exists n, environ_int py_int environ key = Ok n /\ 0 <= n < 2 ^ 53.

(** The commands print their versions, the variables the banner needs
    are set to numbers, and the sizes are below [2^53]. *)
Definition bootrom_inputs_ok (check_output : string -> result string)
    (py_int : string -> result Z) (devices : list Device.t)
    (environ : gmap string string) : Prop :=
  (exists v, check_output gitver_cmd = Ok v) /\
  (exists root v,
      environ !! "ARIANE_ROOT" = Some root /\
      check_output ("cd " +:+ root +:+ " && " +:+ gitver_cmd) = Ok v) /\
  (exists label, sysFreq_label py_int environ = Ok label) /\
  Forall (int_setting py_int environ)
         [ "PITON_X_TILES"; "PITON_Y_TILES"; "PITON_NUM_TILES";
           "CONFIG_L1I_ASSOCIATIVITY"; "CONFIG_L1D_ASSOCIATIVITY";
           "CONFIG_L15_ASSOCIATIVITY"; "CONFIG_L2_ASSOCIATIVITY" ] /\
  (exists network, environ !! "PITON_NETWORK_CONFIG" = Some network) /\
  0 <= scan_memLen devices < 2 ^ 53 /\
  Forall (size_setting py_int environ)
         [ "CONFIG_L1I_SIZE"; "CONFIG_L1D_SIZE"; "CONFIG_L15_SIZE"; "CONFIG_L2_SIZE" ].

(** ** Reading a register field back *)

(** The base and length a reader of the tree takes from a register
    field of two address cells and two size cells. *)
Definition reg_decode (field : string) : option (Z * Z) :=
  match List.map cell_value (tokens field) with
  | [Some base_hi; Some base_lo; Some len_hi; Some len_lo] =>
      Some (base_hi * 2 ^ 32 + base_lo, len_hi * 2 ^ 32 + len_lo)
  | _ => None
  end.

(** A cell count as [_reg_fmt] treats it: one cell from 1, two from 2. *)
Definition clamp_cells (n : Z) : Z := Z.max 0 (Z.min 2 n).

(** ** More lines of the device tree *)

(** The names [gen_riscv_dts] compares a device's name with. *)
Definition known_names : list string :=
  ["mem"; "ariane_clint"; "ariane_plic"; "uart"; "sd"; "net"].

Definition is_ndev : string -> bool := starts_with "            riscv,ndev = <".

Definition ndev_line (numIrqs : Z) : string :=
  "            riscv,ndev = <" +:+ fmt_d numIrqs +:+ ">;".

Definition is_clint_header : string -> bool := starts_with "        clint@".
Definition is_sd_header : string -> bool := starts_with "        sdhci_0: sdhci@".

Definition clint_header (d : Device.t) : string :=
  "        clint@" +:+ fmt_08x (Device.base d) +:+ " {".

Definition sd_header (d : Device.t) : string :=
  "        sdhci_0: sdhci@" +:+ fmt_08x (Device.base d) +:+ " {".

(** The first line of the node of a memory or of a peripheral. *)
Definition is_device_header (l : string) : bool :=
  is_memory_header l || is_clint_header l || is_plic_header l ||
  is_uart_header l || is_sd_header l || is_eth_header l.

(** The headers of the peripheral nodes of one device. *)
Definition periph_headers (d : Device.t) : list string :=
  ((if named "ariane_clint" d then [clint_header d] else []) ++
   (if named "ariane_plic" d then [plic_header d] else []) ++
   (if named "uart" d then [uart_header d] else []) ++
   (if named "sd" d then [sd_header d] else []) ++
   (if named "net" d then [eth_header d] else []))%list.

(** ** The settings of the banner *)

(** The numbers [get_bootrom_info] reads from the environment. *)
Record settings : Type := {
  x_tiles : Z; y_tiles : Z; num_tiles : Z; network : string;
  l1i_size : Z; l1i_assoc : Z; l1d_size : Z; l1d_assoc : Z;
  l15_size : Z; l15_assoc : Z; l2_size : Z; l2_assoc : Z
}.

(** The environment holds the settings [c], with sizes below [2^53]. *)
Definition reads_settings (py_int : string -> result Z)
    (environ : gmap string string) (c : settings) : Prop :=
  environ_int py_int environ "PITON_X_TILES" = Ok (x_tiles c) /\
  environ_int py_int environ "PITON_Y_TILES" = Ok (y_tiles c) /\
  environ_int py_int environ "PITON_NUM_TILES" = Ok (num_tiles c) /\
  environ !! "PITON_NETWORK_CONFIG" = Some (network c) /\
  environ_int py_int environ "CONFIG_L1I_SIZE" = Ok (l1i_size c) /\
  environ_int py_int environ "CONFIG_L1I_ASSOCIATIVITY" = Ok (l1i_assoc c) /\
  environ_int py_int environ "CONFIG_L1D_SIZE" = Ok (l1d_size c) /\
  environ_int py_int environ "CONFIG_L1D_ASSOCIATIVITY" = Ok (l1d_assoc c) /\
  environ_int py_int environ "CONFIG_L15_SIZE" = Ok (l15_size c) /\
  environ_int py_int environ "CONFIG_L15_ASSOCIATIVITY" = Ok (l15_assoc c) /\
  environ_int py_int environ "CONFIG_L2_SIZE" = Ok (l2_size c) /\
  environ_int py_int environ "CONFIG_L2_ASSOCIATIVITY" = Ok (l2_assoc c) /\
  Forall (fun size => 0 <= size < 2 ^ 53)
         [l1i_size c; l1d_size c; l15_size c; l2_size c].

(** The variables [get_bootrom_info] reads with [os.environ[...]]. *)
Definition required_vars : list string :=
  [ "ARIANE_ROOT"; "PITON_X_TILES"; "PITON_Y_TILES"; "PITON_NUM_TILES";
    "PITON_NETWORK_CONFIG";
    "CONFIG_L1I_SIZE"; "CONFIG_L1I_ASSOCIATIVITY";
    "CONFIG_L1D_SIZE"; "CONFIG_L1D_ASSOCIATIVITY";
    "CONFIG_L15_SIZE"; "CONFIG_L15_ASSOCIATIVITY";
    "CONFIG_L2_SIZE"; "CONFIG_L2_ASSOCIATIVITY" ].

Definition example_settings : settings :=
  {| x_tiles := 1; y_tiles := 1; num_tiles := 1; network := "xbar_config";
     l1i_size := 16384; l1i_assoc := 4; l1d_size := 8192; l1d_assoc := 4;
     l15_size := 8192; l15_assoc := 4; l2_size := 65536; l2_assoc := 4 |}.

(** ** [main] and the files it writes *)

(** The files, by path.  A computation reads and writes them and ends
    with a value or an exception; what was written before an exception
    stays written. *)
Definition io (A : Type) : Type :=
  gmap string string -> gmap string string * result A.

Definition io_ret {A : Type} (a : A) : io A := fun files => (files, Ok a).

Definition io_bind {A B : Type} (m : io A) (k : A -> io B) : io B :=
  fun files =>
    match m files with
    | (files', Ok a) => k a files'
    | (files', Raise e) => (files', Raise e)
    end.

(** A computation without effect on the files. *)
Definition lift {A : Type} (r : result A) : io A := fun files => (files, r).

(** [with open(path, 'w') as file: file.write(content)], the directory
    being there. *)
Definition write_file (path content : string) : io unit :=
  fun files => (<[path := content]> files, Ok tt).

#[global] Instance io_mret : MRet io := @io_ret.
#[global] Instance io_mbind : MBind io := fun A B k m => io_bind m k.

Definition dts_file (dtsPath : string) : string := dtsPath +:+ "/rv64_platform.dts".
Definition info_file (dtsPath : string) : string := dtsPath +:+ "/info.h".

Definition bootrom_dir (root : string) : string :=
  root +:+ "/design/chipset/rv64_platform/bootrom/".

Section Main.
(** What the interpreter and the shell provide, as for
    [get_bootrom_info]. *)
Variable check_output : string -> result string.
Variable py_int : string -> result Z.
Variable str_of_bytes : string -> string.

(** [gen_riscv_dts] with its file: the time base may be a float, which
    [%d] prints truncated, once the assertion on [nCpus] has passed. *)
Definition gen_riscv_dts_io (devices : list Device.t) (nCpus cpuFreq : Z)
    (timeBaseFreq : spec_float) (periphFreq : Z) (dtsPath timeStamp : string)
  : io unit :=
  tmpStr ← lift (_ ← assert (nCpus >=? 1);
                  timeBase ← int_of_float timeBaseFreq;
                  gen_riscv_dts devices nCpus cpuFreq timeBase periphFreq timeStamp);
  write_file (dts_file dtsPath) tmpStr.

(** [get_bootrom_info] with its file. *)
Definition get_bootrom_info_io (devices : list Device.t)
    (environ : gmap string string) (dtsPath timeStamp : string) : io unit :=
  tmpStr ← lift (get_bootrom_info check_output py_int str_of_bytes devices environ
                                   timeStamp);
  write_file (info_file dtsPath) tmpStr.

(** just use a default frequency for device tree generation if not
    defined *)
Definition main_sysFreq (environ : gmap string string) : result Z :=
  match environ !! "CONFIG_SYS_FREQ" with
  | Some v => py_int v
  | None => Ok 50000000
  end.

(** [main], given the device list [ReadDevicesXMLFile] returns, the
    [PITON_NUM_TILES] of [pyhplib] and the time stamp [time.strftime]
    returns.  The arguments of each call are evaluated before the call. *)
Definition main (devices : list Device.t) (PITON_NUM_TILES : Z)
    (environ : gmap string string) (timeStamp : string) : io unit :=
  sysFreq ← lift (main_sysFreq environ);
  timeBaseFreq ← lift (int_truediv sysFreq 128);
  root ← lift (environ_get environ "DV_ROOT");
  _ ← gen_riscv_dts_io devices PITON_NUM_TILES sysFreq timeBaseFreq sysFreq
                        (bootrom_dir root) timeStamp;
  _ ← lift (int_truediv sysFreq 128);
  root ← lift (environ_get environ "DV_ROOT");
  get_bootrom_info_io devices environ (bootrom_dir root) timeStamp.
End Main.

(** ** Frequencies in the device tree *)

Definition is_timebase : string -> bool :=
  starts_with "        timebase-frequency = <".
Definition is_clock : string -> bool :=
  starts_with "            clock-frequency = <".

Definition timebase_line (timeBaseFreq : Z) : string :=
  "        timebase-frequency = <" +:+ fmt_d timeBaseFreq +:+ ">;".

Definition clock_line (freq : Z) : string :=
  "            clock-frequency = <" +:+ fmt_d freq +:+ ">;".

(** A line that gives a frequency. *)
Definition is_frequency (l : string) : bool := is_timebase l || is_clock l.

(** ** Example environments of [main] *)



(** * Properties *)

(** ** Strings *)

Lemma append_assoc (a b c : string) : (a +:+ b) +:+ c = a +:+ (b +:+ c).
Proof. induction a as [|x a IH]; simpl; [reflexivity | now rewrite IH]. Qed.

Lemma append_nil_r (a : string) : a +:+ EmptyString = a.
Proof. induction a as [|x a IH]; simpl; [reflexivity | now rewrite IH]. Qed.

Lemma length_append (a b : string) :
  String.length (a +:+ b) = (String.length a + String.length b)%nat.
Proof. induction a as [|x a IH]; simpl; [reflexivity | now rewrite IH]. Qed.

Lemma forallb_string_app p (a b : string) :
  forallb_string p (a +:+ b) = forallb_string p a && forallb_string p b.
Proof.
  induction a as [|x a IH]; simpl; [reflexivity |].
  now rewrite IH, andb_assoc.
Qed.

Lemma free_of_app c (a b : string) :
  free_of c (a +:+ b) = free_of c a && free_of c b.
Proof. apply forallb_string_app. Qed.

Lemma forallb_string_impl (p p' : ascii -> bool) (s : string) :
  (forall a, p a = true -> p' a = true) ->
  forallb_string p s = true -> forallb_string p' s = true.
Proof.
  intros Hp. induction s as [|x s IH]; simpl; [reflexivity |].
  intros H. apply andb_true_iff in H as [Hx Hs].
  now rewrite (Hp _ Hx), (IH Hs).
Qed.

Lemma split_not_nil c s : split c s <> [].
Proof.
  destruct s as [|a s]; simpl; [discriminate |].
  destruct (Ascii.eqb a c); [discriminate |].
  destruct (split c s); discriminate.
Qed.

Lemma split_free c s : free_of c s = true -> split c s = [s].
Proof.
  induction s as [|a s IH]; simpl; [reflexivity |].
  intros H. apply andb_true_iff in H as [Ha Hs].
  apply negb_true_iff in Ha. rewrite Ha, (IH Hs). reflexivity.
Qed.

Lemma split_app_sep c (a b : string) :
  split c (a +:+ String c b) = (split c a ++ split c b)%list.
Proof.
  induction a as [|x a IH]; simpl.
  - now rewrite Ascii.eqb_refl.
  - destruct (Ascii.eqb x c); [now rewrite IH |].
    rewrite IH. destruct (split c a) as [|h t] eqn:E; [| reflexivity].
    now apply split_not_nil in E.
Qed.

Lemma split_free_sep c (a b : string) :
  free_of c a = true -> split c (a +:+ String c b) = a :: split c b.
Proof. intros H. now rewrite split_app_sep, (split_free _ _ H). Qed.

Lemma text_cons2 (x y : string) (l : list string) :
  text (x :: y :: l) = x +:+ String LF (text (y :: l)).
Proof. reflexivity. Qed.

(** The lines of a text are the lines it was joined from. *)
Lemma lines_text (ls : list string) :
  ls <> [] -> forallb (free_of LF) ls = true -> lines (text ls) = ls.
Proof.
  induction ls as [|x [|y l] IH]; intros Hne H.
  - contradiction.
  - simpl in *. apply andb_true_iff in H as [H _]. now apply split_free.
  - rewrite text_cons2. unfold lines in *.
    simpl forallb in H. apply andb_true_iff in H as [Hx H].
    rewrite (split_free_sep _ _ _ Hx). f_equal. apply IH; [discriminate | exact H].
Qed.

(** Appending a text to a text: the last line of the first continues
    with the first line of the second. *)
Lemma text_snoc_append (l1 : list string) (x y : string) (l2 : list string) :
  text (l1 ++ [x]) +:+ text (y :: l2) = text (l1 ++ (x +:+ y) :: l2).
Proof.
  induction l1 as [|a l1 IH].
  - simpl app. destruct l2 as [|z l2]; [reflexivity |].
    rewrite (text_cons2 (x +:+ y)), (text_cons2 y).
    simpl text at 1. now rewrite append_assoc.
  - change ((a :: l1) ++ [x])%list with (a :: (l1 ++ [x]))%list.
    change ((a :: l1) ++ (x +:+ y) :: l2)%list with (a :: (l1 ++ (x +:+ y) :: l2))%list.
    destruct (l1 ++ [x])%list as [|h r] eqn:E1; [now destruct l1 |].
    destruct (l1 ++ (x +:+ y) :: l2)%list as [|h' r'] eqn:E2; [now destruct l1 |].
    rewrite !text_cons2, append_assoc. simpl. now rewrite IH.
Qed.

Lemma text_append_empty (l1 l2 : list string) :
  l1 <> [] -> text l1 +:+ text (EmptyString :: l2) = text (l1 ++ l2).
Proof.
  intros Hne. destruct (exists_last Hne) as (l & x & ->).
  rewrite text_snoc_append, append_nil_r.
  now rewrite <- app_assoc.
Qed.

(** ** Digits *)

Lemma char_digit_digit_char (d : Z) :
  0 <= d < 16 -> char_digit (digit_char d) = Some d.
Proof.
  intros H.
  assert (E : d = 0 \/ d = 1 \/ d = 2 \/ d = 3 \/ d = 4 \/ d = 5 \/ d = 6 \/ d = 7 \/
              d = 8 \/ d = 9 \/ d = 10 \/ d = 11 \/ d = 12 \/ d = 13 \/ d = 14 \/
              d = 15) by lia.
  repeat (destruct E as [-> | E]; [reflexivity |]). now subst.
Qed.

Section Digits.
Variable b : Z.
Hypothesis Hb : 2 <= b.

Lemma fold_digits_from (ds : list Z) (a : Z) :
  fold_left (shift_in b) ds a
  = a * b ^ Z.of_nat (length ds) + fold_left (shift_in b) ds 0.
Proof.
  revert a. induction ds as [|d ds IH]; intros a.
  - simpl. lia.
  - cbn [fold_left length]. rewrite (IH (shift_in b a d)), (IH (shift_in b 0 d)).
    rewrite Nat2Z.inj_succ, Z.pow_succ_r by lia. unfold shift_in. ring.
Qed.

Lemma digits_fuel_value (f : nat) : forall n acc,
  0 <= n < 2 ^ Z.of_nat f ->
  of_digits b (digits_fuel b f n acc)
  = n * b ^ Z.of_nat (length acc) + of_digits b acc.
Proof.
  unfold of_digits.
  induction f as [|f IH]; intros n acc Hn.
  - change (2 ^ Z.of_nat 0) with 1 in Hn. assert (n = 0) as -> by lia.
    cbn [digits_fuel]. lia.
  - cbn [digits_fuel]. destruct (Z.ltb_spec n b) as [Hlt | Hge].
    + cbn [fold_left]. rewrite fold_digits_from.
      unfold shift_in at 1. now rewrite Z.mul_0_l, Z.add_0_l.
    + rewrite Nat2Z.inj_succ, Z.pow_succ_r in Hn by lia.
      assert (Hq : 0 <= n / b < 2 ^ Z.of_nat f).
      { split; [apply Z.div_pos; lia |].
        apply Z.div_lt_upper_bound; [lia |]. nia. }
      rewrite (IH _ _ Hq). cbn [fold_left length].
      rewrite (fold_digits_from acc (shift_in b 0 (n mod b))).
      rewrite Nat2Z.inj_succ, Z.pow_succ_r by lia. unfold shift_in.
      pose proof (Z.div_mod n b ltac:(lia)) as E.
      set (p := b ^ Z.of_nat (length acc)).
      set (r := fold_left _ acc 0).
      rewrite E at 3. ring.
Qed.

Lemma to_digits_value (n : Z) : 0 <= n -> of_digits b (to_digits b n) = n.
Proof.
  intros Hn. unfold to_digits. rewrite digits_fuel_value.
  - unfold of_digits. simpl. lia.
  - split; [exact Hn |].
    rewrite Nat2Z.inj_succ, Z2Nat.id by apply Z.log2_nonneg.
    destruct (Z.eq_dec n 0) as [-> | Hnz]; [reflexivity |].
    apply Z.log2_spec. lia.
Qed.

Lemma digits_fuel_ok (f : nat) : forall n acc,
  0 <= n -> Forall (digit_ok b) acc -> Forall (digit_ok b) (digits_fuel b f n acc).
Proof.
  induction f as [|f IH]; intros n acc Hn Hacc; cbn [digits_fuel]; [exact Hacc |].
  destruct (Z.ltb_spec n b) as [Hlt | Hge].
  - constructor; [split; lia | exact Hacc].
  - apply IH; [apply Z.div_pos; lia |].
    constructor; [apply Z.mod_pos_bound; lia | exact Hacc].
Qed.

Lemma digits_fuel_length (f : nat) : forall (k : nat) n acc,
  0 <= n < b ^ Z.of_nat k -> (1 <= k)%nat ->
  (length (digits_fuel b f n acc) <= k + length acc)%nat.
Proof.
  induction f as [|f IH]; intros k n acc Hn Hk; cbn [digits_fuel]; [lia |].
  destruct (Z.ltb_spec n b) as [Hlt | Hge]; [simpl; lia |].
  destruct k as [|[|k]]; [lia | |].
  - change (Z.of_nat 1) with 1 in Hn. rewrite Z.pow_1_r in Hn. lia.
  - specialize (IH (S k) (n / b) (n mod b :: acc)).
    cbn [length] in IH. etransitivity; [apply IH |]; try lia.
    split; [apply Z.div_pos; lia |].
    apply Z.div_lt_upper_bound; [lia |].
    rewrite (Nat2Z.inj_succ (S k)), Z.pow_succ_r in Hn by lia. lia.
Qed.

Lemma digits_fuel_longer (f : nat) : forall n acc,
  (length acc <= length (digits_fuel b f n acc))%nat.
Proof.
  induction f as [|f IH]; intros n acc; cbn [digits_fuel]; [lia |].
  destruct (n <? b); [simpl; lia |].
  etransitivity; [| apply IH]. simpl. lia.
Qed.

Lemma to_digits_not_nil (n : Z) : to_digits b n <> [].
Proof.
  unfold to_digits. cbn [digits_fuel].
  destruct (n <? b); [discriminate |].
  intros E. pose proof (digits_fuel_longer (Z.to_nat (Z.log2 n)) (n / b) [n mod b]) as H.
  rewrite E in H. simpl in H. lia.
Qed.

Lemma parse_string_of_digits (ds : list Z) : forall a,
  b <= 16 -> Forall (digit_ok b) ds ->
  parse_digits b a (string_of_digits ds) = Some (fold_left (shift_in b) ds a).
Proof.
  induction ds as [|d ds IH]; intros a Hb16 H; [reflexivity |].
  inversion H as [|? ? Hd Hds]; subst. unfold digit_ok in Hd.
  cbn [string_of_digits parse_digits fold_left].
  rewrite char_digit_digit_char by lia.
  destruct (Z.ltb_spec d b); [| lia]. now apply IH.
Qed.

Lemma forallb_string_of_digits (p : ascii -> bool) (ds : list Z) :
  (forall d, (digit_ok b) d -> p (digit_char d) = true) ->
  Forall (digit_ok b) ds -> forallb_string p (string_of_digits ds) = true.
Proof.
  intros Hp. induction 1 as [|d ds Hd Hds IH]; [reflexivity |].
  cbn [string_of_digits forallb_string]. now rewrite (Hp _ Hd), IH.
Qed.

Lemma render_parse (n : Z) :
  b <= 16 -> 0 <= n -> parse_digits b 0 (render b n) = Some n.
Proof.
  intros Hb16 Hn. unfold render.
  rewrite parse_string_of_digits; [| exact Hb16 |].
  - f_equal. now apply to_digits_value.
  - apply digits_fuel_ok; [exact Hn | constructor].
Qed.

Lemma render_forallb (p : ascii -> bool) (n : Z) :
  (forall d, (digit_ok b) d -> p (digit_char d) = true) ->
  0 <= n -> forallb_string p (render b n) = true.
Proof.
  intros Hp Hn. apply forallb_string_of_digits; [exact Hp |].
  apply digits_fuel_ok; [exact Hn | constructor].
Qed.

Lemma length_string_of_digits (ds : list Z) :
  String.length (string_of_digits ds) = length ds.
Proof. induction ds as [|d ds IH]; simpl; [reflexivity | now rewrite IH]. Qed.

Lemma render_length (n : Z) (k : nat) :
  0 <= n < b ^ Z.of_nat k -> (1 <= k)%nat -> (String.length (render b n) <= k)%nat.
Proof.
  intros Hn Hk. unfold render, to_digits. rewrite length_string_of_digits.
  etransitivity; [apply (digits_fuel_length _ k); assumption |]. simpl. lia.
Qed.

Lemma render_nonempty (n : Z) : nonempty (render b n) = true.
Proof.
  unfold render. pose proof (to_digits_not_nil n) as H.
  destruct (to_digits b n); [contradiction | reflexivity].
Qed.
End Digits.

(** ** Formatted numbers *)

Lemma plain_free_of (c : ascii) (s : string) :
  Ascii.is_space c = true -> forallb_string plain s = true -> free_of c s = true.
Proof.
  intros Hc. apply forallb_string_impl. intros a Ha.
  destruct (Ascii.eqb_spec a c) as [-> | _]; [| reflexivity].
  unfold plain in Ha. now rewrite Hc in Ha.
Qed.

Lemma plain_free_of_SP s : forallb_string plain s = true -> free_of SP s = true.
Proof. now apply plain_free_of. Qed.

Lemma plain_free_of_LF s : forallb_string plain s = true -> free_of LF s = true.
Proof. now apply plain_free_of. Qed.

Lemma hex_digit_char (d : Z) : 0 <= d < 16 -> is_hex_digit (digit_char d) = true.
Proof. intros H. unfold is_hex_digit. now rewrite char_digit_digit_char. Qed.

Lemma digit_char_plain (d : Z) : 0 <= d < 16 -> plain (digit_char d) = true.
Proof.
  intros H.
  assert (E : d = 0 \/ d = 1 \/ d = 2 \/ d = 3 \/ d = 4 \/ d = 5 \/ d = 6 \/ d = 7 \/
              d = 8 \/ d = 9 \/ d = 10 \/ d = 11 \/ d = 12 \/ d = 13 \/ d = 14 \/
              d = 15) by lia.
  repeat (destruct E as [-> | E]; [reflexivity |]). now subst.
Qed.

Lemma length_repeat_char c n : String.length (repeat_char c n) = n.
Proof. induction n as [|n IH]; simpl; [reflexivity | now rewrite IH]. Qed.

Lemma forallb_repeat_char p c n : p c = true -> forallb_string p (repeat_char c n) = true.
Proof. intros H. induction n as [|n IH]; simpl; [reflexivity | now rewrite H, IH]. Qed.

Lemma lpad_length c w s :
  String.length (lpad c w s) = Nat.max w (String.length s).
Proof. unfold lpad. rewrite length_append, length_repeat_char. lia. Qed.

Lemma lpad_forallb p c w s :
  p c = true -> forallb_string p s = true -> forallb_string p (lpad c w s) = true.
Proof.
  intros Hc Hs. unfold lpad.
  now rewrite forallb_string_app, forallb_repeat_char, Hs.
Qed.

Lemma parse_zero_head b s :
  0 < b -> parse_digits b 0 (String "0" s) = parse_digits b 0 s.
Proof.
  intros Hb. change (parse_digits b 0 (String "0" s))
    with (if 0 <? b then parse_digits b (0 * b + 0) s else None).
  destruct (Z.ltb_spec 0 b); [reflexivity | lia].
Qed.

Lemma lpad_zero_parse b w s :
  0 < b -> parse_digits b 0 (lpad "0" w s) = parse_digits b 0 s.
Proof.
  intros Hb. unfold lpad. induction (w - String.length s)%nat as [|n IH]; [reflexivity |].
  cbn [repeat_char String.append]. now rewrite parse_zero_head.
Qed.

Lemma lpad_nonempty c w s : nonempty s = true -> nonempty (lpad c w s) = true.
Proof.
  unfold lpad. destruct (w - String.length s)%nat; [now simpl | reflexivity].
Qed.

Lemma render_plain b n : 2 <= b <= 16 -> 0 <= n -> forallb_string plain (render b n) = true.
Proof.
  intros Hb Hn. apply render_forallb; [lia | | exact Hn].
  intros d Hd. apply digit_char_plain. unfold digit_ok in Hd. lia.
Qed.

Lemma fmt_d_nonneg n : 0 <= n -> fmt_d n = render 10 n.
Proof. intros H. unfold fmt_d. destruct (Z.ltb_spec n 0); [lia | reflexivity]. Qed.

Lemma fmt_d_plain n : forallb_string plain (fmt_d n) = true.
Proof.
  unfold fmt_d. destruct (Z.ltb_spec n 0).
  - cbn [String.append forallb_string]. rewrite render_plain by lia. reflexivity.
  - apply render_plain; lia.
Qed.

Lemma fmt_d_nonempty n : nonempty (fmt_d n) = true.
Proof.
  unfold fmt_d. destruct (n <? 0); [reflexivity |]. apply render_nonempty.
Qed.

Lemma fmt_d_parse n : 0 <= n -> parse_digits 10 0 (fmt_d n) = Some n.
Proof. intros H. rewrite fmt_d_nonneg by exact H. apply render_parse; lia. Qed.

(** Distinct numbers are printed differently. *)
Lemma fmt_d_inj n m : 0 <= n -> 0 <= m -> fmt_d n = fmt_d m -> n = m.
Proof.
  intros Hn Hm E. pose proof (fmt_d_parse n Hn) as Pn.
  rewrite E, (fmt_d_parse m Hm) in Pn. congruence.
Qed.

Lemma fmt_08x_plain n : forallb_string plain (fmt_08x n) = true.
Proof.
  unfold fmt_08x. destruct (Z.ltb_spec n 0).
  - cbn [String.append forallb_string].
    rewrite lpad_forallb; [reflexivity | reflexivity |]. apply render_plain; lia.
  - apply lpad_forallb; [reflexivity |]. apply render_plain; lia.
Qed.

Lemma fmt_08x_nonempty n : nonempty (fmt_08x n) = true.
Proof.
  unfold fmt_08x. destruct (n <? 0); [reflexivity |].
  apply lpad_nonempty, render_nonempty.
Qed.

(** A 32-bit value is printed as exactly eight hexadecimal digits that
    read back as the value. *)
Lemma fmt_08x_u32 n :
  0 <= n < 2 ^ 32 ->
  String.length (fmt_08x n) = 8%nat /\
  forallb_string is_hex_digit (fmt_08x n) = true /\
  parse_digits 16 0 (fmt_08x n) = Some n.
Proof.
  intros Hn. unfold fmt_08x. destruct (Z.ltb_spec n 0); [lia |].
  split; [| split].
  - rewrite lpad_length.
    pose proof (render_length 16 ltac:(lia) n 8 ltac:(simpl; lia) ltac:(lia)). lia.
  - apply lpad_forallb; [reflexivity |].
    apply render_forallb; [lia | | lia].
    intros d Hd. apply hex_digit_char. exact Hd.
  - rewrite lpad_zero_parse by lia. apply render_parse; lia.
Qed.

(** ** [_reg_fmt] *)

Lemma tokens_space (s : string) : tokens (String SP s) = tokens s.
Proof. reflexivity. Qed.

Lemma is_token_spec t :
  is_token t = true -> nonempty t = true /\ free_of SP t = true /\ free_of LF t = true.
Proof.
  unfold is_token. intros H. apply andb_true_iff in H as [H1 H2].
  auto using plain_free_of_SP, plain_free_of_LF.
Qed.

Lemma tokens_spaced (ts : list string) :
  Forall (fun t => is_token t = true) ts -> tokens (spaced ts) = ts.
Proof.
  induction 1 as [|t ts Ht Hts IH]; [reflexivity |].
  apply is_token_spec in Ht as (Hne & Hsp & _).
  cbn [spaced fold_right]. unfold tokens.
  change (t +:+ " " +:+ fold_right (fun t r => t +:+ " " +:+ r) EmptyString ts)
    with (t +:+ String SP (spaced ts)).
  rewrite (split_free_sep _ _ _ Hsp). cbn [List.filter]. rewrite Hne.
  f_equal. exact IH.
Qed.

Lemma cell_is_token v : is_token (cell v) = true.
Proof.
  unfold is_token, cell. cbn [String.append nonempty forallb_string].
  now rewrite fmt_08x_plain.
Qed.

Lemma cell_value_cell v : 0 <= v < 2 ^ 32 -> cell_value (cell v) = Some v.
Proof.
  intros Hv. destruct (fmt_08x_u32 v Hv) as (Hl & Hh & Hp).
  unfold cell, cell_value. cbn [String.append].
  now rewrite Hl, Hh, Nat.eqb_refl.
Qed.

(** The asserts of [_reg_fmt] hold for every cell count, and its result
    is a space followed by the cells, each followed by a space. *)
Lemma reg_fmt_shape (addrBase addrLen addrCells sizeCells : Z) :
  _reg_fmt addrBase addrLen addrCells sizeCells
  = Ok (" " +:+ spaced (List.map cell (reg_cells addrBase addrLen addrCells sizeCells))).
Proof.
  unfold _reg_fmt, reg_cells.
  assert (Ha : (addrCells >=? 1) || (addrCells <=? 2) = true).
  { apply orb_true_iff. rewrite Z.geb_leb, !Z.leb_le. lia. }
  assert (Hs : (sizeCells >=? 0) || (sizeCells <=? 2) = true).
  { apply orb_true_iff. rewrite Z.geb_leb, !Z.leb_le. lia. }
  rewrite Ha, Hs. cbn [assert mbind result_bind].
  destruct (addrCells >=? 2), (addrCells >=? 1), (sizeCells >=? 2), (sizeCells >=? 1);
    cbn [app List.map spaced fold_right cell];
    rewrite ?append_assoc; reflexivity.
Qed.

Lemma reg_cells_spec (base len a s : Z) :
  0 <= a <= 2 -> 0 <= s <= 2 ->
  reg_cells base len a s = spec_cells base len a s.
Proof.
  intros Ha Hs. unfold reg_cells, spec_cells.
  change 0xFFFFFFFF with (Z.ones 32).
  rewrite !Z.land_ones, !Z.shiftr_div_pow2 by lia.
  assert (Ea : (a >=? 2) = (a =? 2)).
  { rewrite Z.geb_leb. destruct (Z.leb_spec 2 a), (Z.eqb_spec a 2); lia. }
  assert (Es : (s >=? 2) = (s =? 2)).
  { rewrite Z.geb_leb. destruct (Z.leb_spec 2 s), (Z.eqb_spec s 2); lia. }
  now rewrite Ea, Es.
Qed.

Lemma spec_cells_length (base len a s : Z) :
  0 <= a <= 2 -> 0 <= s <= 2 ->
  length (spec_cells base len a s) = Z.to_nat (a + s).
Proof.
  intros Ha Hs.
  assert (E : (a = 0 \/ a = 1 \/ a = 2) /\ (s = 0 \/ s = 1 \/ s = 2)) by lia.
  destruct E as [[-> | [-> | ->]] [-> | [-> | ->]]]; reflexivity.
Qed.

Lemma spec_cells_u32 (base len a s : Z) :
  0 <= base < 2 ^ 64 -> 0 <= len < 2 ^ 64 ->
  Forall (fun v => 0 <= v < 2 ^ 32) (spec_cells base len a s).
Proof.
  intros Hb Hl. unfold spec_cells.
  assert (Hd : forall x, 0 <= x < 2 ^ 64 -> 0 <= x / 2 ^ 32 < 2 ^ 32).
  { intros x Hx. split; [apply Z.div_pos; lia |].
    apply Z.div_lt_upper_bound; lia. }
  assert (Hm : forall x, 0 <= x mod 2 ^ 32 < 2 ^ 32).
  { intros x. apply Z.mod_pos_bound. lia. }
  destruct (a =? 2), (a >=? 1), (s =? 2), (s >=? 1);
    cbn [app]; repeat first [apply List.Forall_nil | apply List.Forall_cons]; auto.
Qed.

Lemma map_cell_value (vs : list Z) :
  Forall (fun v => 0 <= v < 2 ^ 32) vs ->
  List.map cell_value (List.map cell vs) = List.map Some vs.
Proof.
  induction 1 as [|v vs Hv Hvs IH]; [reflexivity |].
  cbn [List.map]. now rewrite cell_value_cell, IH.
Qed.

Lemma tokens_reg_fmt (vs : list Z) :
  tokens (" " +:+ spaced (List.map cell vs)) = List.map cell vs.
Proof.
  change (" " +:+ spaced (List.map cell vs)) with (String SP (spaced (List.map cell vs))).
  rewrite tokens_space. apply tokens_spaced.
  induction vs as [|v vs IH]; constructor; [apply cell_is_token | exact IH].
Qed.

(** C2.  For cell counts in {0,1,2} and a 64-bit base and length,
    [_reg_fmt] returns a string of exactly [addrCells + sizeCells]
    tokens (none when both counts are 0), each [0x] followed by exactly
    eight hexadecimal digits; read back, the tokens are in order the
    upper 32 bits of the base (two address cells only), its lower 32
    bits (at least one address cell), the upper 32 bits of the length
    (two size cells only) and its lower 32 bits (at least one size
    cell). *)
Theorem reg_fmt_cells (addrBase addrLen addrCells sizeCells : Z) :
  0 <= addrBase < 2 ^ 64 -> 0 <= addrLen < 2 ^ 64 ->
  0 <= addrCells <= 2 -> 0 <= sizeCells <= 2 ->
  exists str,
    _reg_fmt addrBase addrLen addrCells sizeCells = Ok str /\
    length (tokens str) = Z.to_nat (addrCells + sizeCells) /\
    List.map cell_value (tokens str)
    = List.map Some (spec_cells addrBase addrLen addrCells sizeCells).
Proof.
  intros Hb Hl Ha Hs. eexists. split; [apply reg_fmt_shape |].
  rewrite tokens_reg_fmt, reg_cells_spec by assumption.
  split.
  - rewrite length_map. now apply spec_cells_length.
  - apply map_cell_value. now apply spec_cells_u32.
Qed.

Lemma reg_fmt_cells_witness :
  exists str,
    _reg_fmt 0x80000000 0x10000000 2 2 = Ok str /\
    length (tokens str) = Z.to_nat (2 + 2) /\
    List.map cell_value (tokens str)
    = List.map Some (spec_cells 0x80000000 0x10000000 2 2).
Proof. apply reg_fmt_cells; lia. Defined.

(** C3, as the specification states it, fails: the string returned for
    the example ends with a space after the last cell. *)
Lemma reg_fmt_example_not_trimmed :
  _reg_fmt 0x80000000 0x10000000 2 2
  <> Ok " 0x00000000 0x80000000 0x00000000 0x10000000".
Proof. vm_compute. discriminate. Qed.

(** C3, amended.  The string [_reg_fmt] returns is one space followed by
    the cells, every cell followed by a single space (also the last
    one); the cells hold no white space.  For the example the result is
    the four cells with a leading and a trailing space. *)
Theorem reg_fmt_spacing :
  (forall addrBase addrLen addrCells sizeCells, exists ts,
      _reg_fmt addrBase addrLen addrCells sizeCells = Ok (" " +:+ spaced ts) /\
      Forall (fun t => is_token t = true) ts /\
      tokens (" " +:+ spaced ts) = ts) /\
  _reg_fmt 0x80000000 0x10000000 2 2
  = Ok " 0x00000000 0x80000000 0x00000000 0x10000000 ".
Proof.
  split; [| vm_compute; reflexivity].
  intros b l a s. exists (List.map cell (reg_cells b l a s)).
  split; [apply reg_fmt_shape |]. split; [| apply tokens_reg_fmt].
  induction (reg_cells b l a s) as [|v vs IH]; constructor;
    [apply cell_is_token | exact IH].
Qed.

(** C6: the two asserts of [_reg_fmt] are disjunctions that hold for
    every integer, so no cell count makes it raise; with three address
    cells, or with a negative size cell count, it returns a string. *)
Theorem reg_fmt_never_raises :
  (forall addrBase addrLen addrCells sizeCells, exists str,
      _reg_fmt addrBase addrLen addrCells sizeCells = Ok str) /\
  _reg_fmt 0 0 3 0 = Ok " 0x00000000 0x00000000 " /\
  _reg_fmt 0 0 1 (-1) = Ok " 0x00000000 ".
Proof.
  split; [| split; vm_compute; reflexivity].
  intros b l a s. eexists. apply reg_fmt_shape.
Qed.

(** ** [gen_riscv_dts]: the text as a list of lines *)

Lemma reg_fmt_field (d : Device.t) :
  _reg_fmt (Device.base d) (Device.length d) 2 2 = Ok (reg_field d).
Proof. apply reg_fmt_shape. Qed.

Lemma text_snoc_string (l : list string) (x s : string) :
  text (l ++ [x]) +:+ s = text (l ++ [x +:+ s]).
Proof. exact (text_snoc_append l x s []). Qed.

Lemma fold_routing (irq : Z -> string) (ks : list Z) : forall l x,
  fold_left (fun s k => s +:+ irq k) ks (text (l ++ [x]))
  = text (l ++ [x +:+ fold_right (fun k r => irq k +:+ r) EmptyString ks]).
Proof.
  induction ks as [|k ks IH]; intros l x; cbn [fold_left fold_right].
  - now rewrite append_nil_r.
  - now rewrite text_snoc_string, IH, append_assoc.
Qed.

(** Appending an opened, continued and closed template. *)
Lemma text_joined (ls o : list string) (irq : Z -> string) (nCpus : Z)
    (c0 : string) (c : list string) :
  ls <> [] -> o <> [] ->
  fold_left (fun s k => s +:+ irq k) (range nCpus)
            (text ls +:+ text (EmptyString :: o)) +:+ text (c0 :: c)
  = text (ls ++ tail (joined (EmptyString :: o) (routing irq nCpus) (c0 :: c))).
Proof.
  intros Hne Ho. rewrite (text_append_empty _ _ Hne).
  destruct (exists_last Ho) as (o' & y & ->).
  rewrite app_assoc, fold_routing, text_snoc_append. f_equal.
  unfold joined, routing. cbn [hd].
  change (EmptyString :: o' ++ [y])%list with ((EmptyString :: o') ++ [y])%list.
  rewrite removelast_last, last_last. cbn [app tail].
  now rewrite <- !app_assoc, append_assoc.
Qed.

Lemma emit_cpus_lines (cpuFreq : Z) (ks : list Z) : forall ls,
  ls <> [] ->
  fold_left (fun s k => s +:+ text (cpu_node cpuFreq k)) ks (text ls)
  = text (ls ++ flat_map (cpu_lines cpuFreq) ks).
Proof.
  induction ks as [|k ks IH]; intros ls Hne; cbn [fold_left flat_map].
  - now rewrite app_nil_r.
  - change (cpu_node cpuFreq k) with (EmptyString :: cpu_lines cpuFreq k).
    rewrite (text_append_empty _ _ Hne), IH, <- app_assoc; [reflexivity |].
    destruct ls; [contradiction | discriminate].
Qed.

Lemma emit_memory_step (ls : list string) (d : Device.t) :
  ls <> [] -> emit_memory (text ls) d = Ok (text (ls ++ mem_lines d)).
Proof.
  intros Hne. unfold emit_memory, mem_lines. destruct (named "mem" d).
  - rewrite reg_fmt_field. cbn [mbind result_bind].
    change (memory_node (Device.base d) (reg_field d))
      with (EmptyString :: tail (memory_node (Device.base d) (reg_field d))).
    now rewrite (text_append_empty _ _ Hne).
  - now rewrite app_nil_r.
Qed.

Lemma app_not_nil {A : Type} (l l' : list A) : l <> [] -> (l ++ l')%list <> [].
Proof. destruct l; [contradiction | discriminate]. Qed.

Lemma emit_memory_lines (devices : list Device.t) : forall ls,
  ls <> [] ->
  for_each emit_memory devices (text ls)
  = Ok (text (ls ++ flat_map mem_lines devices)).
Proof.
  induction devices as [|d r IH]; intros ls Hne; cbn [for_each flat_map].
  - now rewrite app_nil_r.
  - rewrite (emit_memory_step _ _ Hne). cbn [mbind result_bind].
    rewrite IH by now apply app_not_nil. now rewrite <- app_assoc.
Qed.

Lemma emit_clint_lines (nCpus : Z) (d : Device.t) (ls : list string) :
  ls <> [] -> emit_clint nCpus d (text ls) = Ok (text (ls ++ clint_lines nCpus d)).
Proof.
  intros Hne. unfold emit_clint. rewrite reg_fmt_field. cbn [mbind result_bind].
  unfold clint_lines. f_equal.
  apply (text_joined ls (tail (clint_open (Device.base d))) clint_irq nCpus);
    [exact Hne | discriminate].
Qed.

Lemma emit_plic_lines (nCpus numIrqs : Z) (d : Device.t) (ls : list string) :
  ls <> [] ->
  emit_plic nCpus numIrqs d (text ls) = Ok (text (ls ++ plic_lines nCpus numIrqs d)).
Proof.
  intros Hne. unfold emit_plic. rewrite reg_fmt_field. cbn [mbind result_bind].
  unfold plic_lines. f_equal.
  apply (text_joined ls (tail (plic_open (Device.base d))) plic_irq nCpus);
    [exact Hne | discriminate].
Qed.

Lemma emit_uart_lines (periphFreq nr : Z) (d : Device.t) (ls : list string) :
  ls <> [] ->
  emit_uart periphFreq nr d (text ls)
  = Ok (text (ls ++ tail (uart_node (Device.base d) (reg_field d) periphFreq nr))).
Proof.
  intros Hne. unfold emit_uart. rewrite reg_fmt_field. cbn [mbind result_bind].
  f_equal. now apply text_append_empty.
Qed.

Lemma emit_sd_lines (d : Device.t) (ls : list string) :
  ls <> [] ->
  emit_sd d (text ls) = Ok (text (ls ++ tail (sd_node (Device.base d) (reg_field d)))).
Proof.
  intros Hne. unfold emit_sd. rewrite reg_fmt_field. cbn [mbind result_bind].
  f_equal. now apply text_append_empty.
Qed.

Lemma emit_net_lines (nr : Z) (d : Device.t) (ls : list string) :
  ls <> [] ->
  emit_net nr d (text ls)
  = Ok (text (ls ++ tail (net_node (Device.base d) (reg_field d) nr))).
Proof.
  intros Hne. unfold emit_net. rewrite reg_fmt_field. cbn [mbind result_bind].
  f_equal. now apply text_append_empty.
Qed.

(** One iteration of the peripheral pass. *)
Lemma periph_body_step (nCpus periphFreq numIrqs nr : Z) (d : Device.t)
    (ls : list string) :
  ls <> [] ->
  periph_body nCpus periphFreq numIrqs (text ls, nr) d
  = Ok (text (ls ++ dev_lines nCpus periphFreq numIrqs nr d), next_nr nr d).
Proof.
  intros Hne. unfold periph_body, dev_lines, next_nr.
  destruct (named "ariane_clint" d);
    [rewrite (emit_clint_lines _ _ _ Hne) |]; cbn [mbind result_bind];
  (destruct (named "ariane_plic" d);
    [rewrite emit_plic_lines by (try apply app_not_nil; exact Hne) |];
    cbn [mbind result_bind]);
  (destruct (named "uart" d);
    [rewrite emit_uart_lines by (repeat apply app_not_nil; exact Hne) |];
    cbn [mbind result_bind]);
  (destruct (named "sd" d);
    [rewrite emit_sd_lines by (repeat apply app_not_nil; exact Hne) |];
    cbn [mbind result_bind]);
  (destruct (named "net" d);
    [rewrite emit_net_lines by (repeat apply app_not_nil; exact Hne) |];
    cbn [mbind result_bind]);
  rewrite ?app_nil_r, <- ?app_assoc; cbn [app]; rewrite ?app_nil_r; reflexivity.
Qed.

Lemma periph_pass_lines (nCpus periphFreq numIrqs : Z) (devices : list Device.t) :
  forall ls nr, ls <> [] ->
  for_each (periph_body nCpus periphFreq numIrqs) devices (text ls, nr)
  = Ok (text (ls ++ periph_lines nCpus periphFreq numIrqs (number devices nr)),
        fold_left next_nr devices nr).
Proof.
  induction devices as [|d r IH]; intros ls nr Hne; cbn [for_each number fold_left].
  - unfold periph_lines. cbn [flat_map]. now rewrite app_nil_r.
  - rewrite (periph_body_step _ _ _ _ _ _ Hne). cbn [mbind result_bind].
    rewrite IH by now apply app_not_nil.
    unfold periph_lines. cbn [flat_map fst snd]. now rewrite <- app_assoc.
Qed.

(** [gen_riscv_dts] up to its last assertion. *)
Lemma dts_run_lines (devices : list Device.t)
    (nCpus cpuFreq timeBaseFreq periphFreq : Z) (timeStamp : string) :
  1 <= nCpus ->
  dts_run devices nCpus cpuFreq timeBaseFreq periphFreq timeStamp
  = Ok {| uartBase := scan_uartBase devices;
          tmpStr := text (dts_lines devices nCpus cpuFreq timeBaseFreq periphFreq
                                    timeStamp);
          numIrqs := count_irqs devices;
          ioDeviceNr := fold_left next_nr devices 1 |}.
Proof.
  intros Hn. unfold dts_run.
  assert (E : (nCpus >=? 1) = true) by (rewrite Z.geb_leb; now apply Z.leb_le).
  rewrite E. cbn [assert mbind result_bind].
  unfold emit_cpus. rewrite emit_cpus_lines by discriminate.
  change cpus_close with (EmptyString :: tail cpus_close).
  rewrite text_append_empty by (apply app_not_nil; discriminate).
  rewrite emit_memory_lines by (repeat apply app_not_nil; discriminate).
  cbn [mbind result_bind].
  rewrite periph_pass_lines by (repeat apply app_not_nil; discriminate).
  cbn [mbind result_bind].
  change root_close with (EmptyString :: tail root_close).
  rewrite text_append_empty by (repeat apply app_not_nil; discriminate).
  unfold dts_lines. now rewrite <- !app_assoc.
Qed.

(** *** The two counts of interrupt sources *)

Lemma name_in_devWithIrq (d : Device.t) :
  name_in devWithIrq d = named "uart" d || named "net" d.
Proof. unfold name_in, devWithIrq, named. cbn [existsb]. now rewrite orb_false_r. Qed.

Lemma uart_not_net (d : Device.t) : named "uart" d = true -> named "net" d = false.
Proof.
  unfold named. intros H. apply String.eqb_eq in H. rewrite H. reflexivity.
Qed.

Lemma next_nr_irq (nr : Z) (d : Device.t) :
  next_nr nr d = if name_in devWithIrq d then nr + 1 else nr.
Proof.
  rewrite name_in_devWithIrq. unfold next_nr.
  destruct (named "uart" d) eqn:Hu; [rewrite (uart_not_net _ Hu) |]; reflexivity.
Qed.

Lemma fold_next_nr (devices : list Device.t) : forall nr,
  fold_left next_nr devices nr
  = nr + Z.of_nat (length (List.filter (name_in devWithIrq) devices)).
Proof.
  induction devices as [|d r IH]; intros nr; cbn [fold_left List.filter].
  - simpl. lia.
  - rewrite IH, next_nr_irq. destruct (name_in devWithIrq d); cbn [length]; lia.
Qed.

Lemma fold_count_irqs (devices : list Device.t) : forall n,
  fold_left (fun numIrqs d => if name_in devWithIrq d then numIrqs + 1 else numIrqs)
            devices n
  = n + Z.of_nat (length (List.filter (name_in devWithIrq) devices)).
Proof.
  induction devices as [|d r IH]; intros n; cbn [fold_left List.filter].
  - simpl. lia.
  - rewrite IH. destruct (name_in devWithIrq d); cbn [length]; lia.
Qed.

Lemma count_irqs_length (devices : list Device.t) :
  count_irqs devices = Z.of_nat (length (List.filter (name_in devWithIrq) devices)).
Proof. unfold count_irqs. rewrite fold_count_irqs. lia. Qed.

(** The last assertion of [gen_riscv_dts] holds. *)
Lemma irq_counts_match (devices : list Device.t) :
  fold_left next_nr devices 1 - 1 = count_irqs devices.
Proof. rewrite fold_next_nr, count_irqs_length. lia. Qed.

Lemma gen_riscv_dts_lines (devices : list Device.t)
    (nCpus cpuFreq timeBaseFreq periphFreq : Z) (timeStamp : string) :
  1 <= nCpus ->
  gen_riscv_dts devices nCpus cpuFreq timeBaseFreq periphFreq timeStamp
  = Ok (text (dts_lines devices nCpus cpuFreq timeBaseFreq periphFreq timeStamp)).
Proof.
  intros Hn. unfold gen_riscv_dts. rewrite (dts_run_lines _ _ _ _ _ _ Hn).
  cbn [mbind result_bind ioDeviceNr numIrqs tmpStr].
  rewrite irq_counts_match, Z.eqb_refl. reflexivity.
Qed.

(** C1.  For every device list and every [nCpus >= 1], the number of
    devices named [uart] or [net] found by the counting loop ([numIrqs])
    equals the number of interrupt indices handed out by the peripheral
    loop ([ioDeviceNr - 1]); the last assertion holds and
    [gen_riscv_dts] returns its text without raising. *)
Theorem irq_count_consistent (devices : list Device.t)
    (nCpus cpuFreq timeBaseFreq periphFreq : Z) (timeStamp : string) :
  1 <= nCpus ->
  exists st,
    dts_run devices nCpus cpuFreq timeBaseFreq periphFreq timeStamp = Ok st /\
    numIrqs st = Z.of_nat (length (List.filter (name_in devWithIrq) devices)) /\
    ioDeviceNr st - 1 = numIrqs st /\
    gen_riscv_dts devices nCpus cpuFreq timeBaseFreq periphFreq timeStamp
    = Ok (tmpStr st).
Proof.
  intros Hn. eexists. split; [now apply dts_run_lines |].
  cbn [numIrqs ioDeviceNr tmpStr].
  split; [apply count_irqs_length |].
  split; [apply irq_counts_match |].
  now apply gen_riscv_dts_lines.
Qed.

Lemma irq_count_consistent_witness :
  exists st,
    dts_run example_devices 2 50000000 390625 50000000 example_timeStamp = Ok st /\
    numIrqs st
    = Z.of_nat (length (List.filter (name_in devWithIrq) example_devices)) /\
    ioDeviceNr st - 1 = numIrqs st /\
    gen_riscv_dts example_devices 2 50000000 390625 50000000 example_timeStamp
    = Ok (tmpStr st).
Proof. apply irq_count_consistent. lia. Defined.

(** ** Lines without line feeds *)

Lemma free_LF_fmt_d n : free_of LF (fmt_d n) = true.
Proof. apply plain_free_of_LF, fmt_d_plain. Qed.

Lemma free_LF_fmt_08x n : free_of LF (fmt_08x n) = true.
Proof. apply plain_free_of_LF, fmt_08x_plain. Qed.

Lemma free_LF_spaced ts :
  Forall (fun t => free_of LF t = true) ts -> free_of LF (spaced ts) = true.
Proof.
  induction 1 as [|t ts Ht Hts IH]; [reflexivity |].
  cbn [spaced fold_right]. fold (spaced ts).
  now rewrite !free_of_app, Ht, IH.
Qed.

Lemma free_LF_reg_field d : free_of LF (reg_field d) = true.
Proof.
  unfold reg_field. rewrite free_of_app, free_LF_spaced; [reflexivity |].
  induction (reg_cells _ _ _ _) as [|v vs IH]; constructor; [| exact IH].
  unfold cell. now rewrite free_of_app, free_LF_fmt_08x.
Qed.

Lemma free_LF_routing (irq : Z -> string) (nCpus : Z) :
  (forall k, free_of LF (irq k) = true) -> free_of LF (routing irq nCpus) = true.
Proof.
  intros H. unfold routing. induction (range nCpus) as [|k ks IH]; [reflexivity |].
  cbn [fold_right]. now rewrite free_of_app, H, IH.
Qed.

Lemma free_LF_clint_irq k : free_of LF (clint_irq k) = true.
Proof. unfold clint_irq. now rewrite !free_of_app, !free_LF_fmt_d. Qed.

Lemma free_LF_plic_irq k : free_of LF (plic_irq k) = true.
Proof. unfold plic_irq. now rewrite !free_of_app, !free_LF_fmt_d. Qed.

Lemma free_LF_routing_clint n : free_of LF (routing clint_irq n) = true.
Proof. apply free_LF_routing, free_LF_clint_irq. Qed.

Lemma free_LF_routing_plic n : free_of LF (routing plic_irq n) = true.
Proof. apply free_LF_routing, free_LF_plic_irq. Qed.

Lemma forallb_flat_map {A : Type} (p : string -> bool) (f : A -> list string) l :
  (forall x, forallb p (f x) = true) -> forallb p (flat_map f l) = true.
Proof.
  intros H. induction l as [|x l IH]; [reflexivity |].
  cbn [flat_map]. now rewrite forallb_app, H, IH.
Qed.

(** Decide that the lines of a template hold no line feed, given that
    the values substituted in hold none. *)
Ltac nolf :=
  cbn [forallb tail app removelast List.last hd];
  rewrite ?free_of_app, ?free_LF_fmt_d, ?free_LF_fmt_08x, ?free_LF_reg_field,
    ?free_LF_routing_clint, ?free_LF_routing_plic;
  reflexivity.

Lemma cpu_lines_nolf cpuFreq k : forallb (free_of LF) (cpu_lines cpuFreq k) = true.
Proof. unfold cpu_lines, cpu_node. nolf. Qed.

Lemma mem_lines_nolf d : forallb (free_of LF) (mem_lines d) = true.
Proof. unfold mem_lines, memory_node. destruct (named "mem" d); nolf. Qed.

Lemma dev_lines_nolf nCpus periphFreq numIrqs nr d :
  forallb (free_of LF) (dev_lines nCpus periphFreq numIrqs nr d) = true.
Proof.
  unfold dev_lines. rewrite !forallb_app.
  assert (H1 : forallb (free_of LF) (clint_lines nCpus d) = true).
  { unfold clint_lines, joined, clint_open, clint_close. nolf. }
  assert (H2 : forallb (free_of LF) (plic_lines nCpus numIrqs d) = true).
  { unfold plic_lines, joined, plic_open, plic_close. nolf. }
  assert (H3 : forallb (free_of LF)
                 (tail (uart_node (Device.base d) (reg_field d) periphFreq nr)) = true).
  { unfold uart_node. nolf. }
  assert (H4 : forallb (free_of LF)
                 (tail (sd_node (Device.base d) (reg_field d))) = true).
  { unfold sd_node. nolf. }
  assert (H5 : forall n, forallb (free_of LF)
                 (tail (net_node (Device.base d) (reg_field d) n)) = true).
  { intros n. unfold net_node. nolf. }
  destruct (named "ariane_clint" d), (named "ariane_plic" d), (named "uart" d),
    (named "sd" d), (named "net" d);
    rewrite ?H1, ?H2, ?H3, ?H4, ?H5; reflexivity.
Qed.

Lemma dts_lines_nolf (devices : list Device.t)
    (nCpus cpuFreq timeBaseFreq periphFreq : Z) (timeStamp : string) :
  free_of LF timeStamp = true ->
  forallb (free_of LF)
          (dts_lines devices nCpus cpuFreq timeBaseFreq periphFreq timeStamp) = true.
Proof.
  intros Hts. unfold dts_lines. rewrite !forallb_app.
  rewrite (forallb_flat_map _ (cpu_lines cpuFreq)) by apply cpu_lines_nolf.
  rewrite (forallb_flat_map _ mem_lines) by apply mem_lines_nolf.
  unfold periph_lines.
  rewrite forallb_flat_map by (intros x; apply dev_lines_nolf).
  assert (H : forallb (free_of LF) (dts_header timeStamp timeBaseFreq) = true).
  { unfold dts_header. cbn [forallb].
    rewrite ?free_of_app, ?free_LF_fmt_d, Hts. reflexivity. }
  rewrite H. reflexivity.
Qed.

(** The lines of the text [gen_riscv_dts] returns. *)
Lemma gen_riscv_dts_select (devices : list Device.t)
    (nCpus cpuFreq timeBaseFreq periphFreq : Z) (timeStamp : string) :
  1 <= nCpus -> free_of LF timeStamp = true ->
  exists doc,
    gen_riscv_dts devices nCpus cpuFreq timeBaseFreq periphFreq timeStamp = Ok doc /\
    lines doc = dts_lines devices nCpus cpuFreq timeBaseFreq periphFreq timeStamp.
Proof.
  intros Hn Hts. eexists. split; [now apply gen_riscv_dts_lines |].
  apply lines_text; [| now apply dts_lines_nolf].
  unfold dts_lines. apply app_not_nil. discriminate.
Qed.

(** ** Selecting lines of the device tree *)

#[local] Arguments reg_field : simpl never.
#[local] Arguments routing : simpl never.
#[local] Arguments fmt_d : simpl never.
#[local] Arguments fmt_08x : simpl never.

Lemma filter_flat_map {A : Type} (p : string -> bool) (f : A -> list string) l :
  List.filter p (flat_map f l) = flat_map (fun x => List.filter p (f x)) l.
Proof.
  induction l as [|x l IH]; [reflexivity |].
  cbn [flat_map]. now rewrite List.filter_app, IH.
Qed.

Lemma flat_map_nil {A B : Type} (f : A -> list B) l :
  (forall x, f x = []) -> flat_map f l = [].
Proof.
  intros H. induction l as [|x l IH]; [reflexivity |].
  cbn [flat_map]. now rewrite H, IH.
Qed.

Lemma flat_map_singleton {A B : Type} (f : A -> list B) (g : A -> B) l :
  (forall x, f x = [g x]) -> flat_map f l = List.map g l.
Proof.
  intros H. induction l as [|x l IH]; [reflexivity |].
  cbn [flat_map List.map]. now rewrite H, IH.
Qed.

Lemma flat_map_filter_map {A B : Type} (c : A -> bool) (g : A -> B) l :
  flat_map (fun x => if c x then [g x] else []) l = List.map g (List.filter c l).
Proof.
  induction l as [|x l IH]; [reflexivity |].
  cbn [flat_map List.filter]. rewrite IH. now destruct (c x).
Qed.

Lemma filter_dts_lines (p : string -> bool) (devices : list Device.t)
    (nCpus cpuFreq timeBaseFreq periphFreq : Z) (timeStamp : string) :
  List.filter p (dts_lines devices nCpus cpuFreq timeBaseFreq periphFreq timeStamp)
  = (List.filter p (dts_header timeStamp timeBaseFreq) ++
     flat_map (fun k => List.filter p (cpu_lines cpuFreq k)) (range nCpus) ++
     List.filter p (tail cpus_close) ++
     flat_map (fun d => List.filter p (mem_lines d)) devices ++
     flat_map (fun dn => List.filter p
                 (dev_lines nCpus periphFreq (count_irqs devices) (snd dn) (fst dn)))
              (number devices 1) ++
     List.filter p (tail root_close))%list.
Proof.
  unfold dts_lines, periph_lines. now rewrite !List.filter_app, !filter_flat_map.
Qed.

(** Evaluate a selection on the lines of a template. *)
Ltac sel :=
  unfold is_irq_line, is_cpu_header, is_routing, is_memory_header, is_memory_reg,
    is_plic_header, is_uart_header, is_eth_header, is_interrupts, is_interrupt_parent,
    cpu_lines, mem_lines, clint_lines, plic_lines, joined,
    dts_header, cpu_node, cpus_close, memory_node, clint_open, clint_close,
    plic_open, plic_close, uart_node, sd_node, net_node, root_close,
    cpu_header, routing_line, memory_header, memory_reg, uart_header, eth_header,
    plic_header, interrupt_parent, interrupts_line;
  repeat match goal with
         | |- context [reg_field ?d] => generalize (reg_field d); intro
         | |- context [routing ?irq ?n] => generalize (routing irq n); intro
         end;
  simpl; reflexivity.

(** The same on the lines a device adds: one case per combination of the
    tests on its name. *)
Ltac sel_dev d :=
  unfold dev_lines;
  destruct (named "ariane_clint" d), (named "ariane_plic" d), (named "uart" d),
    (named "sd" d), (named "net" d);
  sel.

Ltac sel_mem d :=
  destruct (named "mem" d) eqn:E; unfold mem_lines; rewrite E; sel.

Section TemplateLines.
Variables (timeStamp : string) (timeBaseFreq cpuFreq k : Z).
Variables (nCpus periphFreq numIrqs nr : Z) (d : Device.t).

Lemma cpu_header_in_header :
  List.filter is_cpu_header (dts_header timeStamp timeBaseFreq) = [].
Proof. sel. Qed.

Lemma cpu_header_in_cpu :
  List.filter is_cpu_header (cpu_lines cpuFreq k) = [cpu_header k].
Proof. sel. Qed.

Lemma cpu_header_in_mem : List.filter is_cpu_header (mem_lines d) = [].
Proof. sel_mem d. Qed.

Lemma cpu_header_in_dev :
  List.filter is_cpu_header (dev_lines nCpus periphFreq numIrqs nr d) = [].
Proof. sel_dev d. Qed.

Lemma routing_in_header :
  List.filter is_routing (dts_header timeStamp timeBaseFreq) = [].
Proof. sel. Qed.

Lemma routing_in_cpu : List.filter is_routing (cpu_lines cpuFreq k) = [].
Proof. sel. Qed.

Lemma routing_in_mem : List.filter is_routing (mem_lines d) = [].
Proof. sel_mem d. Qed.

Lemma routing_in_dev :
  List.filter is_routing (dev_lines nCpus periphFreq numIrqs nr d)
  = ((if named "ariane_clint" d then [routing_line clint_irq nCpus] else []) ++
     (if named "ariane_plic" d then [routing_line plic_irq nCpus] else []))%list.
Proof. sel_dev d. Qed.

Lemma memory_header_in_header :
  List.filter is_memory_header (dts_header timeStamp timeBaseFreq) = [].
Proof. sel. Qed.

Lemma memory_header_in_cpu : List.filter is_memory_header (cpu_lines cpuFreq k) = [].
Proof. sel. Qed.

Lemma memory_header_in_mem :
  List.filter is_memory_header (mem_lines d)
  = if named "mem" d then [memory_header d] else [].
Proof. sel_mem d. Qed.

Lemma memory_header_in_dev :
  List.filter is_memory_header (dev_lines nCpus periphFreq numIrqs nr d) = [].
Proof. sel_dev d. Qed.

Lemma memory_reg_in_header :
  List.filter is_memory_reg (dts_header timeStamp timeBaseFreq) = [].
Proof. sel. Qed.

Lemma memory_reg_in_cpu : List.filter is_memory_reg (cpu_lines cpuFreq k) = [].
Proof. sel. Qed.

Lemma memory_reg_in_mem :
  List.filter is_memory_reg (mem_lines d)
  = if named "mem" d then [memory_reg (reg_field d)] else [].
Proof. sel_mem d. Qed.

Lemma memory_reg_in_dev :
  List.filter is_memory_reg (dev_lines nCpus periphFreq numIrqs nr d) = [].
Proof. sel_dev d. Qed.

Lemma uart_header_in_header :
  List.filter is_uart_header (dts_header timeStamp timeBaseFreq) = [].
Proof. sel. Qed.

Lemma uart_header_in_cpu : List.filter is_uart_header (cpu_lines cpuFreq k) = [].
Proof. sel. Qed.

Lemma uart_header_in_mem : List.filter is_uart_header (mem_lines d) = [].
Proof. sel_mem d. Qed.

Lemma uart_header_in_dev :
  List.filter is_uart_header (dev_lines nCpus periphFreq numIrqs nr d)
  = if named "uart" d then [uart_header d] else [].
Proof. sel_dev d. Qed.

Lemma plic_header_in_header :
  List.filter is_plic_header (dts_header timeStamp timeBaseFreq) = [].
Proof. sel. Qed.

Lemma plic_header_in_cpu : List.filter is_plic_header (cpu_lines cpuFreq k) = [].
Proof. sel. Qed.

Lemma plic_header_in_mem : List.filter is_plic_header (mem_lines d) = [].
Proof. sel_mem d. Qed.

Lemma plic_header_in_dev :
  List.filter is_plic_header (dev_lines nCpus periphFreq numIrqs nr d)
  = if named "ariane_plic" d then [plic_header d] else [].
Proof. sel_dev d. Qed.

Lemma irq_line_in_header :
  List.filter is_irq_line (dts_header timeStamp timeBaseFreq) = [].
Proof. sel. Qed.

Lemma irq_line_in_cpu : List.filter is_irq_line (cpu_lines cpuFreq k) = [].
Proof. sel. Qed.

Lemma irq_line_in_mem : List.filter is_irq_line (mem_lines d) = [].
Proof. sel_mem d. Qed.

Lemma irq_line_in_dev :
  List.filter is_irq_line (dev_lines nCpus periphFreq numIrqs nr d)
  = ((if named "uart" d
      then [uart_header d; interrupt_parent; interrupts_line nr] else []) ++
     (if named "net" d
      then [eth_header d; interrupt_parent;
            interrupts_line (if named "uart" d then nr + 1 else nr)]
      else []))%list.
Proof. sel_dev d. Qed.
End TemplateLines.

Lemma select_cpu_headers (devices : list Device.t)
    (nCpus cpuFreq timeBaseFreq periphFreq : Z) (timeStamp : string) :
  List.filter is_cpu_header
    (dts_lines devices nCpus cpuFreq timeBaseFreq periphFreq timeStamp)
  = List.map cpu_header (range nCpus).
Proof.
  rewrite filter_dts_lines, cpu_header_in_header.
  rewrite (flat_map_singleton _ cpu_header) by apply cpu_header_in_cpu.
  rewrite (flat_map_nil (fun d => List.filter _ (mem_lines d)))
    by apply cpu_header_in_mem.
  rewrite flat_map_nil by (intros x; apply cpu_header_in_dev).
  cbn [app]. now rewrite app_nil_r.
Qed.

Lemma flat_map_number {B : Type} (f : Device.t -> list B) devices : forall nr,
  flat_map (fun dn => f (fst dn)) (number devices nr) = flat_map f devices.
Proof.
  induction devices as [|d r IH]; intros nr; [reflexivity |].
  cbn [number flat_map fst]. now rewrite IH.
Qed.

Lemma select_routing (devices : list Device.t)
    (nCpus cpuFreq timeBaseFreq periphFreq : Z) (timeStamp : string) :
  List.filter is_routing
    (dts_lines devices nCpus cpuFreq timeBaseFreq periphFreq timeStamp)
  = flat_map (fun d =>
      (if named "ariane_clint" d then [routing_line clint_irq nCpus] else []) ++
      (if named "ariane_plic" d then [routing_line plic_irq nCpus] else []))%list
      devices.
Proof.
  rewrite filter_dts_lines, routing_in_header.
  rewrite (flat_map_nil (fun k => List.filter _ (cpu_lines _ k)))
    by apply routing_in_cpu.
  rewrite (flat_map_nil (fun d => List.filter _ (mem_lines d)))
    by apply routing_in_mem.
  rewrite (flat_map_ext _ _ (fun dn => routing_in_dev _ _ _ (snd dn) (fst dn))).
  rewrite (flat_map_number (fun d =>
      (if named "ariane_clint" d then [routing_line clint_irq nCpus] else []) ++
      (if named "ariane_plic" d then [routing_line plic_irq nCpus] else []))%list).
  cbn [app]. now rewrite app_nil_r.
Qed.

Lemma select_memory_headers (devices : list Device.t)
    (nCpus cpuFreq timeBaseFreq periphFreq : Z) (timeStamp : string) :
  List.filter is_memory_header
    (dts_lines devices nCpus cpuFreq timeBaseFreq periphFreq timeStamp)
  = List.map memory_header (List.filter (named "mem") devices).
Proof.
  rewrite filter_dts_lines, memory_header_in_header.
  rewrite (flat_map_nil (fun k => List.filter _ (cpu_lines _ k)))
    by apply memory_header_in_cpu.
  rewrite (flat_map_ext _ _ memory_header_in_mem), flat_map_filter_map.
  rewrite flat_map_nil by (intros x; apply memory_header_in_dev).
  cbn [app]. now rewrite app_nil_r.
Qed.

Lemma select_memory_regs (devices : list Device.t)
    (nCpus cpuFreq timeBaseFreq periphFreq : Z) (timeStamp : string) :
  List.filter is_memory_reg
    (dts_lines devices nCpus cpuFreq timeBaseFreq periphFreq timeStamp)
  = List.map (fun d => memory_reg (reg_field d)) (List.filter (named "mem") devices).
Proof.
  rewrite filter_dts_lines, memory_reg_in_header.
  rewrite (flat_map_nil (fun k => List.filter _ (cpu_lines _ k)))
    by apply memory_reg_in_cpu.
  rewrite (flat_map_ext _ _ memory_reg_in_mem).
  rewrite (flat_map_filter_map (named "mem") (fun d => memory_reg (reg_field d))).
  rewrite flat_map_nil by (intros x; apply memory_reg_in_dev).
  cbn [app]. now rewrite app_nil_r.
Qed.

Lemma select_uart_headers (devices : list Device.t)
    (nCpus cpuFreq timeBaseFreq periphFreq : Z) (timeStamp : string) :
  List.filter is_uart_header
    (dts_lines devices nCpus cpuFreq timeBaseFreq periphFreq timeStamp)
  = List.map uart_header (List.filter (named "uart") devices).
Proof.
  rewrite filter_dts_lines, uart_header_in_header.
  rewrite (flat_map_nil (fun k => List.filter _ (cpu_lines _ k)))
    by apply uart_header_in_cpu.
  rewrite (flat_map_nil (fun d => List.filter _ (mem_lines d)))
    by apply uart_header_in_mem.
  rewrite (flat_map_ext _ _ (fun dn => uart_header_in_dev _ _ _ (snd dn) (fst dn))).
  rewrite (flat_map_number (fun d => if named "uart" d then [uart_header d] else [])).
  rewrite flat_map_filter_map. cbn [app]. now rewrite app_nil_r.
Qed.

Lemma select_plic_headers (devices : list Device.t)
    (nCpus cpuFreq timeBaseFreq periphFreq : Z) (timeStamp : string) :
  List.filter is_plic_header
    (dts_lines devices nCpus cpuFreq timeBaseFreq periphFreq timeStamp)
  = List.map plic_header (List.filter (named "ariane_plic") devices).
Proof.
  rewrite filter_dts_lines, plic_header_in_header.
  rewrite (flat_map_nil (fun k => List.filter _ (cpu_lines _ k)))
    by apply plic_header_in_cpu.
  rewrite (flat_map_nil (fun d => List.filter _ (mem_lines d)))
    by apply plic_header_in_mem.
  rewrite (flat_map_ext _ _ (fun dn => plic_header_in_dev _ _ _ (snd dn) (fst dn))).
  rewrite (flat_map_number
             (fun d => if named "ariane_plic" d then [plic_header d] else [])).
  rewrite flat_map_filter_map. cbn [app]. now rewrite app_nil_r.
Qed.

(** The interrupt lines of the numbered devices: the devices named
    [uart] or [net], in order, numbered from the counter's start. *)
Lemma irq_lines_numbered (devices : list Device.t) : forall (s : nat),
  flat_map (fun dn : Device.t * Z =>
      (if named "uart" (fst dn)
       then [uart_header (fst dn); interrupt_parent; interrupts_line (snd dn)]
       else []) ++
      (if named "net" (fst dn)
       then [eth_header (fst dn); interrupt_parent;
             interrupts_line (if named "uart" (fst dn) then snd dn + 1 else snd dn)]
       else []))%list
    (number devices (Z.of_nat s))
  = flat_map (fun nd : Z * Device.t =>
               [irq_node_header (snd nd); interrupt_parent; interrupts_line (fst nd)])
      (combine (List.map Z.of_nat
                  (seq s (length (List.filter (name_in devWithIrq) devices))))
               (List.filter (name_in devWithIrq) devices)).
Proof.
  induction devices as [|d r IH]; intros s; [reflexivity |].
  cbn [number flat_map fst snd List.filter].
  rewrite next_nr_irq, name_in_devWithIrq. unfold irq_node_header.
  destruct (named "uart" d) eqn:Hu.
  - rewrite (uart_not_net _ Hu). cbn [orb length seq List.map combine flat_map fst snd app].
    rewrite Hu. f_equal. f_equal. f_equal.
    replace (Z.of_nat s + 1) with (Z.of_nat (S s)) by lia. apply IH.
  - destruct (named "net" d) eqn:Hn;
      cbn [orb length seq List.map combine flat_map fst snd app].
    + rewrite Hu. f_equal. f_equal. f_equal.
      replace (Z.of_nat s + 1) with (Z.of_nat (S s)) by lia. apply IH.
    + apply IH.
Qed.

Lemma select_irq_lines (devices : list Device.t)
    (nCpus cpuFreq timeBaseFreq periphFreq : Z) (timeStamp : string) :
  List.filter is_irq_line
    (dts_lines devices nCpus cpuFreq timeBaseFreq periphFreq timeStamp)
  = flat_map (fun nd : Z * Device.t =>
               [irq_node_header (snd nd); interrupt_parent; interrupts_line (fst nd)])
      (combine (List.map Z.of_nat
                  (seq 1 (length (List.filter (name_in devWithIrq) devices))))
               (List.filter (name_in devWithIrq) devices)).
Proof.
  rewrite filter_dts_lines, irq_line_in_header.
  rewrite (flat_map_nil (fun k => List.filter _ (cpu_lines _ k)))
    by apply irq_line_in_cpu.
  rewrite (flat_map_nil (fun d => List.filter _ (mem_lines d)))
    by apply irq_line_in_mem.
  rewrite (flat_map_ext _ _ (fun dn => irq_line_in_dev _ _ _ (snd dn) (fst dn))).
  pose proof (irq_lines_numbered devices 1) as H.
  change (Z.of_nat 1) with 1 in H. rewrite H. cbn [app]. now rewrite app_nil_r.
Qed.

(** ** The routing fields *)

Lemma spaced_app (a b : list string) : spaced (a ++ b) = spaced a +:+ spaced b.
Proof.
  induction a as [|t a IH]; [reflexivity |].
  cbn [app spaced fold_right]. fold (spaced (a ++ b)) (spaced a).
  now rewrite IH, !append_assoc.
Qed.

Lemma routing_spaced (irq : Z -> string) (a b : string) (nCpus : Z) :
  (forall k, irq k = spaced [intc_ref k; a; intc_ref k; b]) ->
  routing irq nCpus = spaced (routing_tokens a b nCpus).
Proof.
  intros H. unfold routing, routing_tokens.
  induction (range nCpus) as [|k ks IH]; [reflexivity |].
  cbn [fold_right flat_map]. now rewrite spaced_app, IH, H.
Qed.

Lemma clint_irq_spaced k : clint_irq k = spaced [intc_ref k; "3"; intc_ref k; "7"].
Proof.
  unfold clint_irq, intc_ref. cbn [spaced fold_right].
  rewrite !append_assoc. reflexivity.
Qed.

Lemma plic_irq_spaced k : plic_irq k = spaced [intc_ref k; "11"; intc_ref k; "9"].
Proof.
  unfold plic_irq, intc_ref. cbn [spaced fold_right].
  rewrite !append_assoc. reflexivity.
Qed.

Lemma intc_ref_token k : is_token (intc_ref k) = true.
Proof.
  unfold is_token, intc_ref. cbn [String.append nonempty].
  change (String "&" (String "C" (String "P" (String "U" (fmt_d k +:+ "_intc")))))
    with ("&CPU" +:+ fmt_d k +:+ "_intc").
  now rewrite !forallb_string_app, fmt_d_plain.
Qed.

Lemma routing_tokens_are_tokens (a b : string) (nCpus : Z) :
  is_token a = true -> is_token b = true ->
  Forall (fun t => is_token t = true) (routing_tokens a b nCpus).
Proof.
  intros Ha Hb. unfold routing_tokens.
  induction (range nCpus) as [|k ks IH]; [constructor |].
  cbn [flat_map app]. repeat constructor; auto using intc_ref_token.
Qed.

Lemma tokens_spaced_then (ts : list string) (t : string) :
  Forall (fun t => is_token t = true) ts -> is_token t = true ->
  tokens (spaced ts +:+ t) = (ts ++ [t])%list.
Proof.
  intros Hts Ht. induction Hts as [|x ts Hx Hts IH].
  - apply is_token_spec in Ht as (Hne & Hsp & _).
    cbn [spaced fold_right String.append app]. unfold tokens.
    rewrite (split_free _ _ Hsp). cbn [List.filter]. now rewrite Hne.
  - apply is_token_spec in Hx as (Hne & Hsp & _).
    cbn [spaced fold_right app]. fold (spaced ts).
    rewrite !append_assoc.
    change (" " +:+ spaced ts +:+ t) with (String SP (spaced ts +:+ t)).
    unfold tokens in *. rewrite (split_free_sep _ _ _ Hsp).
    cbn [List.filter]. rewrite Hne. f_equal. exact IH.
Qed.

(** The routing field read back from a routing line. *)
Lemma routing_field_line (irq : Z -> string) (a b : string) (nCpus : Z) :
  (forall k, irq k = spaced [intc_ref k; a; intc_ref k; b]) ->
  is_token a = true -> is_token b = true ->
  routing_field (routing_line irq nCpus) = routing_tokens a b nCpus.
Proof.
  intros H Ha Hb. unfold routing_field, routing_line.
  change (drop_chars _ (_ +:+ routing irq nCpus +:+ ">;"))
    with (routing irq nCpus +:+ ">;").
  rewrite (routing_spaced _ _ _ _ H), tokens_spaced_then;
    [apply removelast_last | now apply routing_tokens_are_tokens | reflexivity].
Qed.

Lemma append_inj_r (a b c : string) : a +:+ c = b +:+ c -> a = b.
Proof.
  revert b. induction a as [|x a IH]; intros [|y b] E.
  - reflexivity.
  - apply (f_equal String.length) in E.
    cbn [String.append String.length] in E. rewrite length_append in E. lia.
  - apply (f_equal String.length) in E.
    cbn [String.append String.length] in E. rewrite length_append in E. lia.
  - cbn [String.append] in E. injection E as -> E. f_equal. now apply IH.
Qed.

(** Distinct cores have distinct controller references. *)
Lemma intc_ref_inj (j k : Z) : 0 <= j -> 0 <= k -> intc_ref j = intc_ref k -> j = k.
Proof.
  intros Hj Hk E. unfold intc_ref in E.
  cbn [String.append] in E. injection E as E.
  apply append_inj_r in E. now apply fmt_d_inj.
Qed.

Lemma count_range (k : Z) (len : nat) : forall s : nat,
  count_occ Z.eq_dec (List.map Z.of_nat (seq s len)) k
  = if (Z.of_nat s <=? k) && (k <? Z.of_nat (s + len)) then 1%nat else 0%nat.
Proof.
  induction len as [|len IH]; intros s; cbn [seq List.map count_occ].
  - destruct (Z.leb_spec (Z.of_nat s) k), (Z.ltb_spec k (Z.of_nat (s + 0))); simpl;
      try reflexivity; lia.
  - rewrite IH. destruct (Z.eq_dec (Z.of_nat s) k) as [<- | Hne].
    + destruct (Z.leb_spec (Z.of_nat (S s)) (Z.of_nat s)); [lia |].
      destruct (Z.leb_spec (Z.of_nat s) (Z.of_nat s)); [| lia].
      destruct (Z.ltb_spec (Z.of_nat s) (Z.of_nat (s + S len))); [reflexivity | lia].
    + destruct (Z.leb_spec (Z.of_nat (S s)) k), (Z.leb_spec (Z.of_nat s) k),
        (Z.ltb_spec k (Z.of_nat (S s + len))), (Z.ltb_spec k (Z.of_nat (s + S len)));
        simpl; try reflexivity; lia.
Qed.

Lemma count_range_once (nCpus k : Z) :
  0 <= k < nCpus -> count_occ Z.eq_dec (range nCpus) k = 1%nat.
Proof.
  intros H. unfold range. rewrite count_range.
  destruct (Z.leb_spec (Z.of_nat 0) k); [| lia].
  destruct (Z.ltb_spec k (Z.of_nat (0 + Z.to_nat nCpus))); [reflexivity | lia].
Qed.

Lemma range_nonneg (nCpus : Z) : Forall (fun k => 0 <= k) (range nCpus).
Proof.
  unfold range. induction (seq 0 (Z.to_nat nCpus)) as [|x l IH]; constructor;
    [lia | exact IH].
Qed.

Lemma count_intc_ref (a b : string) (k : Z) (ks : list Z) :
  0 <= k -> a <> intc_ref k -> b <> intc_ref k ->
  Forall (fun j => 0 <= j) ks ->
  count_occ String.string_dec
            (flat_map (fun j => [intc_ref j; a; intc_ref j; b]) ks) (intc_ref k)
  = (2 * count_occ Z.eq_dec ks k)%nat.
Proof.
  intros Hk Ha Hb. induction 1 as [|j ks Hj Hks IH]; [reflexivity |].
  cbn [flat_map app count_occ]. rewrite IH.
  destruct (String.string_dec a (intc_ref k)) as [E | _]; [contradiction |].
  destruct (String.string_dec b (intc_ref k)) as [E | _]; [contradiction |].
  destruct (Z.eq_dec j k) as [-> | Hne].
  - destruct (String.string_dec (intc_ref k) (intc_ref k)); [lia | contradiction].
  - destruct (String.string_dec (intc_ref j) (intc_ref k)) as [E | _]; [| lia].
    now apply intc_ref_inj in E.
Qed.

(** Every core's controller is referenced exactly twice in a routing
    field. *)
Lemma routing_refs_twice (a b : string) (nCpus k : Z) :
  starts_with "&" a = false -> starts_with "&" b = false ->
  0 <= k < nCpus ->
  count_occ String.string_dec (routing_tokens a b nCpus) (intc_ref k) = 2%nat.
Proof.
  intros Ha Hb Hk. unfold routing_tokens.
  rewrite count_intc_ref; [now rewrite count_range_once | lia | | | apply range_nonneg].
  - intros ->. discriminate Ha.
  - intros ->. discriminate Hb.
Qed.

Lemma append_inj_length (a b x y : string) :
  a +:+ x = b +:+ y -> String.length a = String.length b -> a = b.
Proof.
  revert b. induction a as [|c a IH]; intros [|c' b] E L; try discriminate L.
  - reflexivity.
  - cbn [String.append] in E. injection E as -> E. f_equal.
    apply IH; [exact E | now injection L].
Qed.

(** Distinct cores have distinct node headers. *)
Lemma cpu_header_inj (j k : Z) : 0 <= j -> 0 <= k -> cpu_header j = cpu_header k -> j = k.
Proof.
  intros Hj Hk E. apply fmt_d_inj; [exact Hj | exact Hk |].
  unfold cpu_header in E. cbn [String.append] in E. injection E as E.
  apply (append_inj_length _ _ _ _ E).
  apply (f_equal String.length) in E. rewrite !length_append in E.
  cbn [String.length] in E. rewrite !length_append in E.
  cbn [String.length] in E. lia.
Qed.

Lemma NoDup_cpu_headers (nCpus : Z) : List.NoDup (List.map cpu_header (range nCpus)).
Proof.
  unfold range. rewrite List.map_map.
  assert (H : forall s len,
             List.NoDup (List.map (fun x => cpu_header (Z.of_nat x)) (seq s len))).
  { intros s len. revert s. induction len as [|len IH]; intros s; cbn [seq List.map].
    - constructor.
    - constructor; [| apply IH].
      intros Hin. apply List.in_map_iff in Hin as (x & E & Hx).
      apply cpu_header_inj in E; try lia.
      apply List.in_seq in Hx. lia. }
  apply H.
Qed.

Lemma length_range (nCpus : Z) : length (range nCpus) = Z.to_nat nCpus.
Proof. unfold range. now rewrite length_map, length_seq. Qed.

(** ** The nodes of the device tree *)

(** The routing fields of the controller nodes, in inventory order. *)
Lemma routing_fields (devices : list Device.t) (nCpus : Z) :
  List.map routing_field
    (flat_map (fun d =>
       (if named "ariane_clint" d then [routing_line clint_irq nCpus] else []) ++
       (if named "ariane_plic" d then [routing_line plic_irq nCpus] else []))%list
       devices)
  = flat_map (fun d =>
      (if named "ariane_clint" d then [routing_tokens "3" "7" nCpus] else []) ++
      (if named "ariane_plic" d then [routing_tokens "11" "9" nCpus] else []))%list
      devices.
Proof.
  induction devices as [|d r IH]; [reflexivity |].
  cbn [flat_map]. rewrite List.map_app, IH. f_equal.
  destruct (named "ariane_clint" d), (named "ariane_plic" d);
    cbn [app List.map];
    rewrite ?(routing_field_line clint_irq "3" "7"),
      ?(routing_field_line plic_irq "11" "9");
    auto using clint_irq_spaced, plic_irq_spaced.
Qed.

(** C4.  For [nCpus >= 1] (and a time stamp on one line) the text holds
    exactly [nCpus] CPU node headers, those of the cores 0 .. nCpus-1 in
    ascending order and each once; its routing lines are those of the
    CLINT and PLIC nodes, one per such device in inventory order, and
    the routing field of each lists for every core in ascending order
    the core's interrupt controller twice, with lines 3 and 7 in a CLINT
    node and 11 and 9 in a PLIC node: every core's controller is
    referenced exactly twice in each field. *)
Theorem cpu_nodes_and_routing (devices : list Device.t)
    (nCpus cpuFreq timeBaseFreq periphFreq : Z) (timeStamp : string) :
  1 <= nCpus -> free_of LF timeStamp = true ->
  exists doc,
    gen_riscv_dts devices nCpus cpuFreq timeBaseFreq periphFreq timeStamp = Ok doc /\
    select is_cpu_header doc = List.map cpu_header (range nCpus) /\
    length (select is_cpu_header doc) = Z.to_nat nCpus /\
    List.NoDup (select is_cpu_header doc) /\
    List.map routing_field (select is_routing doc)
    = flat_map (fun d =>
        (if named "ariane_clint" d then [routing_tokens "3" "7" nCpus] else []) ++
        (if named "ariane_plic" d then [routing_tokens "11" "9" nCpus] else []))%list
        devices /\
    (forall k, 0 <= k < nCpus ->
       count_occ String.string_dec (routing_tokens "3" "7" nCpus) (intc_ref k) = 2%nat /\
       count_occ String.string_dec (routing_tokens "11" "9" nCpus) (intc_ref k) = 2%nat).
Proof.
  intros Hn Hts.
  destruct (gen_riscv_dts_select devices nCpus cpuFreq timeBaseFreq periphFreq
              timeStamp Hn Hts) as (doc & Hdoc & Hlines).
  exists doc. split; [exact Hdoc |]. unfold select. rewrite Hlines.
  rewrite select_cpu_headers, select_routing.
  split; [reflexivity |].
  split; [now rewrite length_map, length_range |].
  split; [apply NoDup_cpu_headers |].
  split; [apply routing_fields |].
  intros k Hk. split; now apply routing_refs_twice.
Qed.

Lemma cpu_nodes_and_routing_witness :
  exists doc,
    gen_riscv_dts example_devices 2 50000000 390625 50000000 example_timeStamp
    = Ok doc /\
    select is_cpu_header doc = List.map cpu_header (range 2) /\
    length (select is_cpu_header doc) = Z.to_nat 2 /\
    List.NoDup (select is_cpu_header doc) /\
    List.map routing_field (select is_routing doc)
    = flat_map (fun d =>
        (if named "ariane_clint" d then [routing_tokens "3" "7" 2] else []) ++
        (if named "ariane_plic" d then [routing_tokens "11" "9" 2] else []))%list
        example_devices /\
    (forall k, 0 <= k < 2 ->
       count_occ String.string_dec (routing_tokens "3" "7" 2) (intc_ref k) = 2%nat /\
       count_occ String.string_dec (routing_tokens "11" "9" 2) (intc_ref k) = 2%nat).
Proof. apply cpu_nodes_and_routing; [lia | reflexivity]. Defined.

(** C5, as the specification states it, fails: an inventory with two
    entries named [mem] yields two memory nodes, the first one for the
    first entry. *)
Lemma two_mem_entries_two_nodes :
  exists doc,
    gen_riscv_dts example_two_mem 1 50000000 390625 50000000 example_timeStamp
    = Ok doc /\
    select is_memory_header doc = ["    memory@80000000 {"; "    memory@c0000000 {"] /\
    length (select is_memory_header doc) <> 1%nat.
Proof.
  eexists. split; [vm_compute; reflexivity |].
  split; [vm_compute; reflexivity | vm_compute; discriminate].
Qed.

Lemma last_cons_default {A : Type} (a d : A) (l : list A) :
  List.last (a :: l) d = List.last l a.
Proof.
  revert a d. induction l as [|x l IH]; intros a d; [reflexivity |].
  change (List.last (a :: x :: l) d) with (List.last (x :: l) d).
  now rewrite (IH x d), (IH x a).
Qed.

(** [scan_memLen] keeps the length of the last entry named [mem]. *)
Lemma scan_memLen_last (devices : list Device.t) :
  scan_memLen devices
  = List.last (List.map Device.length (List.filter (named "mem") devices)) 0.
Proof.
  unfold scan_memLen. generalize 0.
  induction devices as [|d r IH]; intros z; [reflexivity |].
  cbn [fold_left List.filter]. rewrite IH.
  destruct (named "mem" d); [| reflexivity].
  cbn [List.map]. now rewrite last_cons_default.
Qed.

(** C5, amended.  [gen_riscv_dts] emits one memory node per entry named
    [mem], in inventory order, each with the base of its own entry in
    the header and with the register field [_reg_fmt] returns for that
    entry's base and length with two address cells and two size cells
    (so exactly one node when exactly one entry is named [mem]).  The
    last entry named [mem] wins in [get_bootrom_info] only, for the
    memory length of the banner. *)
Theorem memory_node_per_mem_entry (devices : list Device.t)
    (nCpus cpuFreq timeBaseFreq periphFreq : Z) (timeStamp : string) :
  1 <= nCpus -> free_of LF timeStamp = true ->
  exists doc,
    gen_riscv_dts devices nCpus cpuFreq timeBaseFreq periphFreq timeStamp = Ok doc /\
    select is_memory_header doc
    = List.map memory_header (List.filter (named "mem") devices) /\
    Forall2 (fun line d =>
               exists reg,
                 _reg_fmt (Device.base d) (Device.length d) 2 2 = Ok reg /\
                 line = memory_reg reg)
            (select is_memory_reg doc) (List.filter (named "mem") devices) /\
    scan_memLen devices
    = List.last (List.map Device.length (List.filter (named "mem") devices)) 0.
Proof.
  intros Hn Hts.
  destruct (gen_riscv_dts_select devices nCpus cpuFreq timeBaseFreq periphFreq
              timeStamp Hn Hts) as (doc & Hdoc & Hlines).
  exists doc. split; [exact Hdoc |]. unfold select. rewrite Hlines.
  rewrite select_memory_headers, select_memory_regs.
  split; [reflexivity |]. split; [| apply scan_memLen_last].
  induction (List.filter (named "mem") devices) as [|d l IH]; cbn [List.map];
    constructor; [| exact IH].
  exists (reg_field d). split; [apply reg_fmt_field | reflexivity].
Qed.

Lemma memory_node_per_mem_entry_witness :
  exists doc,
    gen_riscv_dts example_two_mem 1 50000000 390625 50000000 example_timeStamp
    = Ok doc /\
    select is_memory_header doc
    = List.map memory_header (List.filter (named "mem") example_two_mem) /\
    Forall2 (fun line d =>
               exists reg,
                 _reg_fmt (Device.base d) (Device.length d) 2 2 = Ok reg /\
                 line = memory_reg reg)
            (select is_memory_reg doc) (List.filter (named "mem") example_two_mem) /\
    scan_memLen example_two_mem
    = List.last (List.map Device.length (List.filter (named "mem") example_two_mem)) 0.
Proof. apply memory_node_per_mem_entry; [lia | reflexivity]. Defined.

Lemma scan_uartBase_absent (devices : list Device.t) :
  forallb (fun d => negb (named "uart" d)) devices = true ->
  scan_uartBase devices = 0xDEADBEEF.
Proof.
  unfold scan_uartBase. generalize 0xDEADBEEF.
  induction devices as [|d r IH]; intros z H; [reflexivity |].
  cbn [forallb] in H. apply andb_true_iff in H as [Hd Hr].
  cbn [fold_left]. apply negb_true_iff in Hd. rewrite Hd. now apply IH.
Qed.

Lemma filter_none {A : Type} (p : A -> bool) (l : list A) :
  forallb (fun x => negb (p x)) l = true -> List.filter p l = [].
Proof.
  induction l as [|x l IH]; [reflexivity |].
  cbn [forallb List.filter]. intros H. apply andb_true_iff in H as [Hx Hl].
  apply negb_true_iff in Hx. rewrite Hx. now apply IH.
Qed.

(** C7, as the specification states it, fails: without a device named
    [uart] the sentinel stays in [uartBase] and is written nowhere; the
    text holds no UART node. *)
Lemma sentinel_not_emitted :
  exists st,
    dts_run example_no_uart 1 50000000 390625 50000000 example_timeStamp = Ok st /\
    gen_riscv_dts example_no_uart 1 50000000 390625 50000000 example_timeStamp
    = Ok (tmpStr st) /\
    uartBase st = 0xDEADBEEF /\
    occurs "deadbeef" (tmpStr st) = false /\
    occurs "DEADBEEF" (tmpStr st) = false /\
    occurs "3735928559" (tmpStr st) = false /\
    occurs "uart@" (tmpStr st) = false.
Proof.
  eexists. split; [vm_compute; reflexivity |].
  repeat split; vm_compute; reflexivity.
Qed.

(** C7, amended.  Without a device named [uart], [gen_riscv_dts] keeps
    the sentinel [0xDEADBEEF] in [uartBase], a variable it never writes
    to the text: UART nodes are emitted for the devices named [uart]
    only, so the text holds none. *)
Theorem no_uart_no_uart_node (devices : list Device.t)
    (nCpus cpuFreq timeBaseFreq periphFreq : Z) (timeStamp : string) :
  forallb (fun d => negb (named "uart" d)) devices = true ->
  1 <= nCpus -> free_of LF timeStamp = true ->
  exists st,
    dts_run devices nCpus cpuFreq timeBaseFreq periphFreq timeStamp = Ok st /\
    gen_riscv_dts devices nCpus cpuFreq timeBaseFreq periphFreq timeStamp
    = Ok (tmpStr st) /\
    uartBase st = 0xDEADBEEF /\
    select is_uart_header (tmpStr st) = [].
Proof.
  intros Hu Hn Hts. eexists. split; [now apply dts_run_lines |].
  cbn [tmpStr uartBase].
  split; [now apply gen_riscv_dts_lines |].
  split; [now apply scan_uartBase_absent |].
  unfold select. rewrite lines_text.
  - rewrite select_uart_headers, filter_none by exact Hu. reflexivity.
  - unfold dts_lines. apply app_not_nil. discriminate.
  - now apply dts_lines_nolf.
Qed.

Lemma no_uart_no_uart_node_witness :
  exists st,
    dts_run example_no_uart 1 50000000 390625 50000000 example_timeStamp = Ok st /\
    gen_riscv_dts example_no_uart 1 50000000 390625 50000000 example_timeStamp
    = Ok (tmpStr st) /\
    uartBase st = 0xDEADBEEF /\
    select is_uart_header (tmpStr st) = [].
Proof. apply no_uart_no_uart_node; [reflexivity | lia | reflexivity]. Defined.

(** C10.  Without a device named [ariane_plic], [gen_riscv_dts] still
    returns its text (so its last assertion holds): the devices named
    [uart] or [net] get, in inventory order, the interrupt numbers 1, 2,
    ..., each of their nodes holds the line [interrupt-parent =
    <&PLIC0>;], and no node labelled [PLIC0] is in the text. *)
Theorem irq_nodes_without_plic (devices : list Device.t)
    (nCpus cpuFreq timeBaseFreq periphFreq : Z) (timeStamp : string) :
  forallb (fun d => negb (named "ariane_plic" d)) devices = true ->
  1 <= nCpus -> free_of LF timeStamp = true ->
  exists doc,
    gen_riscv_dts devices nCpus cpuFreq timeBaseFreq periphFreq timeStamp = Ok doc /\
    select is_irq_line doc
    = flat_map (fun nd : Z * Device.t =>
                 [irq_node_header (snd nd); interrupt_parent; interrupts_line (fst nd)])
        (combine (List.map Z.of_nat
                    (seq 1 (length (List.filter (name_in devWithIrq) devices))))
                 (List.filter (name_in devWithIrq) devices)) /\
    select is_plic_header doc = [].
Proof.
  intros Hp Hn Hts.
  destruct (gen_riscv_dts_select devices nCpus cpuFreq timeBaseFreq periphFreq
              timeStamp Hn Hts) as (doc & Hdoc & Hlines).
  exists doc. split; [exact Hdoc |]. unfold select. rewrite Hlines.
  rewrite select_irq_lines, select_plic_headers.
  rewrite (filter_none (named "ariane_plic")) by exact Hp.
  split; reflexivity.
Qed.

Lemma irq_nodes_without_plic_witness :
  exists doc,
    gen_riscv_dts example_no_plic 2 50000000 390625 50000000 example_timeStamp
    = Ok doc /\
    select is_irq_line doc
    = flat_map (fun nd : Z * Device.t =>
                 [irq_node_header (snd nd); interrupt_parent; interrupts_line (fst nd)])
        (combine (List.map Z.of_nat
                    (seq 1 (length (List.filter (name_in devWithIrq) example_no_plic))))
                 (List.filter (name_in devWithIrq) example_no_plic)) /\
    select is_plic_header doc = [].
Proof. apply irq_nodes_without_plic; [reflexivity | lia | reflexivity]. Defined.

(** ** [get_bootrom_info] *)

Lemma contains_refl (s : string) : contains s s.
Proof. exists EmptyString, EmptyString. now rewrite append_nil_r. Qed.

Lemma contains_app_l (s a t : string) : contains s t -> contains s (a +:+ t).
Proof.
  intros (pre & post & ->). exists (a +:+ pre), post. now rewrite append_assoc.
Qed.

Lemma contains_app_r (s t b : string) : contains s t -> contains s (t +:+ b).
Proof.
  intros (pre & post & ->). exists pre, (post +:+ b). now rewrite !append_assoc.
Qed.

Lemma contains_text (s line : string) (ls : list string) :
  In line ls -> contains s line -> contains s (text ls).
Proof.
  intros Hin Hs. induction ls as [|x [|y l] IH]; [destruct Hin | |].
  - destruct Hin as [-> | []]. exact Hs.
  - rewrite text_cons2. destruct Hin as [-> | Hin].
    + now apply contains_app_r.
    + apply contains_app_l.
      change (String LF (text (y :: l))) with (nl +:+ text (y :: l)).
      apply contains_app_l. now apply IH.
Qed.

(** A field of the banner: the label, then the value. *)
Lemma contains_field (label value rest : string) :
  contains (label +:+ value) (dq +:+ label +:+ value +:+ rest).
Proof.
  apply contains_app_l. rewrite <- append_assoc.
  apply contains_app_r, contains_refl.
Qed.

(** Split a run of the error monad that ended without an exception. *)
Ltac ok_steps H :=
  repeat match type of H with
         | mbind _ ?r = Ok _ =>
             let E := fresh "E" in
             destruct r eqn:E; cbn [mbind result_bind] in H; [| discriminate H]
         end.

(** *** Megabytes of memory

    Below [2^53] every step of [int(memLen/1024/1024)] is exact: the
    quotient by 1024 only changes the exponent of the float. *)

Lemma digits2_pos_size p : digits2_pos p = Pos.size p.
Proof. induction p as [p IH | p IH |]; simpl; now rewrite ?IH. Qed.

Lemma Zdigits2_log2 z : 0 < z -> Zdigits2 z = Z.log2 z + 1.
Proof.
  destruct z as [|p|p]; try lia. intros _. unfold Zdigits2. rewrite digits2_pos_size.
  destruct p; simpl; lia.
Qed.

Lemma shr_1_even (M : Z) :
  0 < M -> shr_1 {| shr_m := 2 * M; shr_r := false; shr_s := false |}
           = {| shr_m := M; shr_r := false; shr_s := false |}.
Proof. destruct M as [|p|p]; try lia. reflexivity. Qed.

(** Rounding a 54-bit even mantissa: one exact shift. *)
Lemma round_even_54 (M e : Z) :
  0 < M -> Z.log2 M = 52 -> -1074 <= e <= 971 ->
  binary_round_aux prec emax false (2 * M) (e - 1) loc_Exact
  = S754_finite false (Z.to_pos M) e.
Proof.
  intros HM Hlog He. unfold binary_round_aux, shr_fexp.
  assert (D2 : Zdigits2 (2 * M) = 54).
  { rewrite Zdigits2_log2 by lia. rewrite Z.log2_double by lia. lia. }
  assert (D1 : Zdigits2 M = 53) by (rewrite Zdigits2_log2 by lia; lia).
  rewrite D2.
  assert (F2 : fexp prec emax (54 + (e - 1)) - (e - 1) = 1).
  { unfold fexp, SpecFloat.emin, prec, emax. lia. }
  rewrite F2. cbn [shr_record_of_loc shr SpecFloat.iter_pos].
  rewrite (shr_1_even M HM). cbn [shr_m loc_of_shr_record round_nearest_even].
  rewrite D1.
  assert (F1 : fexp prec emax (53 + (e - 1 + 1)) - (e - 1 + 1) = 0).
  { unfold fexp, SpecFloat.emin, prec, emax. lia. }
  rewrite F1. cbn [shr_record_of_loc shr shr_m].
  destruct M as [|p|p]; try lia.
  replace (e - 1 + 1) with e by lia.
  destruct (Z.leb_spec e (emax - prec)) as [_ | H]; [reflexivity |].
  unfold emax, prec in H. lia.
Qed.

Lemma div_eucl_exact (a b : Z) : 0 < b -> Z.div_eucl (a * b) b = (a, 0).
Proof.
  intros Hb.
  pose proof (Z.div_mul a b ltac:(lia)) as Hq.
  pose proof (Z.mod_mul a b ltac:(lia)) as Hr.
  unfold Z.div, Z.modulo in Hq, Hr.
  destruct (Z.div_eucl (a * b) b) as [q' r]. now subst.
Qed.

(** The quotient of two floats when the division is exact and leaves a
    54-bit even mantissa. *)
Lemma div_core_exact (m1 e1 m2 e2 M k : Z) :
  0 < m1 -> 0 < m2 -> 0 < k ->
  Z.min (fexp prec emax (Zdigits2 m1 + e1 - (Zdigits2 m2 + e2))) (e1 - e2)
  = e1 - e2 - k ->
  m1 * 2 ^ k = 2 * M * m2 ->
  SFdiv_core_binary prec emax m1 e1 m2 e2 = (2 * M, e1 - e2 - k, new_location m2 0).
Proof.
  intros H1 H2 Hk He Hm. unfold SFdiv_core_binary. rewrite He.
  replace (e1 - e2 - (e1 - e2 - k)) with k by lia.
  destruct k as [|p|p]; try lia.
  rewrite Z.shiftl_mul_pow2 by lia. rewrite Hm, div_eucl_exact by lia.
  reflexivity.
Qed.

Lemma int_truediv_1024 (m : Z) :
  0 < m < 2 ^ 53 ->
  int_truediv m 1024
  = Ok (S754_finite false (Z.to_pos (m * 2 ^ (52 - Z.log2 m))) (Z.log2 m - 62)).
Proof.
  intros Hm. unfold int_truediv.
  assert (Hl : 0 <= Z.log2 m < 53).
  { split; [apply Z.log2_nonneg |]. apply Z.log2_lt_pow2; lia. }
  change (1024 =? 0) with false. change (1024 <? 0) with false.
  destruct (Z.ltb_spec m 0); [lia |]. cbn [xorb].
  rewrite (Z.abs_eq m) by lia. change (Z.abs 1024) with 1024.
  set (M := m * 2 ^ (52 - Z.log2 m)).
  assert (HM : 0 < M) by (unfold M; apply Z.mul_pos_pos; [lia | apply Z.pow_pos_nonneg; lia]).
  assert (HlM : Z.log2 M = 52).
  { unfold M. rewrite Z.log2_mul_pow2 by lia. lia. }
  rewrite (div_core_exact m 0 1024 0 M (63 - Z.log2 m)); try lia.
  - change (new_location 1024 0) with loc_Exact.
    replace (0 - 0 - (63 - Z.log2 m)) with (Z.log2 m - 62 - 1) by lia.
    rewrite round_even_54 by lia. reflexivity.
  - rewrite Zdigits2_log2 by lia. change (Zdigits2 1024) with 11.
    unfold fexp, SpecFloat.emin, prec, emax. lia.
  - unfold M. replace (63 - Z.log2 m) with ((52 - Z.log2 m) + 11) by lia.
    rewrite Z.pow_add_r by lia. change (2 ^ 11) with 2048. lia.
Qed.

Lemma float_div_1024 (M e : Z) :
  0 < M -> Z.log2 M = 52 -> -1063 <= e <= 981 ->
  float_div_int (S754_finite false (Z.to_pos M) e) 1024
  = Ok (S754_finite false (Z.to_pos M) (e - 10)).
Proof.
  intros HM Hl He. unfold float_div_int.
  change (float_of_int 1024) with (Ok (S754_finite false 4503599627370496 (-42))).
  cbn [mbind result_bind]. unfold float_truediv. cbn [is_zero SFdiv xorb].
  rewrite Z2Pos.id by lia.
  rewrite (div_core_exact M e 4503599627370496 (-42) M 53); try lia.
  - change (new_location 4503599627370496 0) with loc_Exact.
    replace (e - -42 - 53) with (e - 10 - 1) by lia.
    rewrite round_even_54 by lia. reflexivity.
  - rewrite Zdigits2_log2 by lia. change (Zdigits2 4503599627370496) with 53.
    unfold fexp, SpecFloat.emin, prec, emax. lia.
Qed.

(** Below [2^53] the conversion to megabytes is the integer quotient. *)
Lemma dram_mb_exact (memLen : Z) :
  0 <= memLen < 2 ^ 53 -> dram_mb memLen = Ok (memLen / 2 ^ 20).
Proof.
  intros H. destruct (Z.eq_dec memLen 0) as [-> | Hnz]; [reflexivity |].
  assert (Hl : 0 <= Z.log2 memLen < 53).
  { split; [apply Z.log2_nonneg |]. apply Z.log2_lt_pow2; lia. }
  unfold dram_mb. rewrite int_truediv_1024 by lia. cbn [mbind result_bind].
  set (M := memLen * 2 ^ (52 - Z.log2 memLen)).
  assert (HM : 0 < M).
  { unfold M. apply Z.mul_pos_pos; [lia | apply Z.pow_pos_nonneg; lia]. }
  assert (HlM : Z.log2 M = 52).
  { unfold M. rewrite Z.log2_mul_pow2 by lia. lia. }
  rewrite float_div_1024 by lia. cbn [mbind result_bind]. unfold int_of_float.
  destruct (Z.geb_spec (Z.log2 memLen - 62 - 10) 0); [lia |].
  rewrite Z2Pos.id by lia. f_equal. unfold M.
  replace (- (Z.log2 memLen - 62 - 10)) with (20 + (52 - Z.log2 memLen)) by lia.
  rewrite Z.pow_add_r by lia.
  apply Z.div_mul_cancel_r; apply Z.pow_nonzero; lia.
Qed.

(** Kilobytes of a cache: exact below [2^53]. *)
Lemma kb_exact (n : Z) :
  0 <= n < 2 ^ 53 ->
  exists x, int_truediv n 1024 = Ok x /\ int_of_float x = Ok (n / 1024).
Proof.
  intros H. destruct (Z.eq_dec n 0) as [-> | Hnz].
  - exists (S754_zero false). split; reflexivity.
  - assert (Hl : 0 <= Z.log2 n < 53).
    { split; [apply Z.log2_nonneg |]. apply Z.log2_lt_pow2; lia. }
    eexists. split; [apply int_truediv_1024; lia |].
    unfold int_of_float.
    destruct (Z.geb_spec (Z.log2 n - 62) 0); [lia |].
    assert (HM : 0 < n * 2 ^ (52 - Z.log2 n)).
    { apply Z.mul_pos_pos; [lia | apply Z.pow_pos_nonneg; lia]. }
    rewrite Z2Pos.id by lia. f_equal.
    replace (- (Z.log2 n - 62)) with (10 + (52 - Z.log2 n)) by lia.
    rewrite Z.pow_add_r by lia. change (2 ^ 10) with 1024.
    apply Z.div_mul_cancel_r; [lia | apply Z.pow_nonzero; lia].
Qed.

Lemma environ_kb_exact py_int environ key :
  size_setting py_int environ key ->
  exists n x, environ_kb py_int environ key = Ok x /\ int_of_float x = Ok (n / 1024).
Proof.
  intros (n & E & Hn). destruct (kb_exact n Hn) as (x & Ex & Ei).
  exists n, x. unfold environ_kb. rewrite E. cbn [mbind result_bind]. now split.
Qed.

(** On well-formed inputs [get_bootrom_info] returns its text. *)
Lemma get_bootrom_info_returns check_output py_int str_of_bytes devices environ
    timeStamp :
  bootrom_inputs_ok check_output py_int devices environ ->
  exists info,
    get_bootrom_info check_output py_int str_of_bytes devices environ timeStamp
    = Ok info.
Proof.
  intros ((pv & Hpv) & (root & av & Hroot & Hav) & (label & Hlabel) & Hints &
          (network & Hnet) & Hmem & Hsizes).
  repeat match goal with
         | H : Forall _ (_ :: _) |- _ => inversion H; clear H; subst
         | H : Forall _ [] |- _ => clear H
         end.
  repeat match goal with
         | H : int_setting _ _ _ |- _ => destruct H as (? & H)
         | H : size_setting _ _ _ |- _ =>
             apply environ_kb_exact in H; destruct H as (? & ? & H & ?)
         end.
  unfold get_bootrom_info, environ_get.
  rewrite Hpv, Hroot. cbn [mbind result_bind]. rewrite Hav, Hlabel.
  cbn [mbind result_bind].
  repeat match goal with
         | H : ?r = Ok _ |- context [?r] => rewrite H; cbn [mbind result_bind]
         end.
  rewrite Hnet. cbn [mbind result_bind].
  rewrite (dram_mb_exact _ Hmem). cbn [mbind result_bind].
  repeat match goal with
         | H : ?r = Ok _ |- context [?r] => rewrite H; cbn [mbind result_bind]
         end.
  eexists. reflexivity.
Qed.

(** C8.  On well-formed inputs [get_bootrom_info] returns its text;
    and whenever it returns its text: if PROTOSYN_RUNTIME_BOARD is
    unset or empty, the text holds the board field with the placeholder
    [None (Simulation)]; if CONFIG_SYS_FREQ is unset, it holds the
    frequency field with [Unknown]. *)
Theorem banner_fallbacks (check_output : string -> result string)
    (py_int : string -> result Z) (str_of_bytes : string -> string)
    (devices : list Device.t) (environ : gmap string string)
    (timeStamp : string) :
  (bootrom_inputs_ok check_output py_int devices environ ->
   exists info,
     get_bootrom_info check_output py_int str_of_bytes devices environ timeStamp
     = Ok info) /\
  (forall info,
     get_bootrom_info check_output py_int str_of_bytes devices environ timeStamp
     = Ok info ->
     (environ !! "PROTOSYN_RUNTIME_BOARD" = None \/
      environ !! "PROTOSYN_RUNTIME_BOARD" = Some EmptyString ->
      contains ("FPGA Board:        " +:+ "None (Simulation)") info) /\
     (environ !! "CONFIG_SYS_FREQ" = None ->
      contains ("Core Freq:         " +:+ "Unknown") info)).
Proof.
  split; [apply get_bootrom_info_returns |].
  intros info H. unfold get_bootrom_info in H. ok_steps H.
  injection H as <-. split.
  - intros Hb.
    assert (Eb : board_name environ = "None (Simulation)").
    { unfold board_name. destruct Hb as [-> | ->]; reflexivity. }
    rewrite Eb.
    eapply contains_text; [| apply contains_field].
    unfold banner. cbn [In]. do 12 right. left. reflexivity.
  - intros Hf.
    match goal with
    | E : sysFreq_label _ _ = Ok ?s |- _ =>
        unfold sysFreq_label in E; rewrite Hf in E; injection E as <-
    end.
    eapply contains_text; [| apply contains_field].
    unfold banner. cbn [In]. do 18 right. left. reflexivity.
Qed.

Lemma example_inputs_ok :
  bootrom_inputs_ok example_check_output int_of_decimal example_devices
                    example_environ.
Proof.
  unfold bootrom_inputs_ok, int_setting, size_setting.
  split; [eexists; reflexivity |].
  split; [do 2 eexists; split; [vm_compute; reflexivity | reflexivity] |].
  split; [eexists; vm_compute; reflexivity |].
  split.
  { repeat constructor; eexists; vm_compute; reflexivity. }
  split; [eexists; vm_compute; reflexivity |].
  split.
  { assert (E : scan_memLen example_devices = 0x20000000)
      by (vm_compute; reflexivity).
    rewrite E. lia. }
  repeat constructor; (eexists; split; [vm_compute; reflexivity | lia]).
Defined.

Lemma banner_fallbacks_witness :
  bootrom_inputs_ok example_check_output int_of_decimal example_devices
                    example_environ /\
  exists info,
    get_bootrom_info example_check_output int_of_decimal bytes_literal
                     example_devices example_environ example_timeStamp = Ok info /\
    contains ("FPGA Board:        " +:+ "None (Simulation)") info /\
    contains ("Core Freq:         " +:+ "Unknown") info.
Proof.
  destruct (banner_fallbacks example_check_output int_of_decimal bytes_literal
              example_devices example_environ example_timeStamp)
    as [Hreturns Hholds].
  split; [exact example_inputs_ok |].
  destruct (Hreturns example_inputs_ok) as (info & E).
  exists info. split; [exact E |].
  destruct (Hholds info E) as [Hboard Hfreq].
  split; [apply Hboard; left | apply Hfreq]; vm_compute; reflexivity.
Defined.

(** C9.  [int(memLen/1024/1024)] divides floats: for a memory of
    [2^64 - 1] bytes (and already for [2^54 - 1]) the quotient by 1024
    is rounded up to the next float before it is truncated, and the
    banner shows one megabyte more than the integer quotient by [2^20].
    Below [2^53] the conversion is exact ([dram_mb_exact]), as for the
    lengths listed last. *)
Theorem dram_size_rounds_up :
  scan_memLen example_huge_mem = 2 ^ 64 - 1 /\
  dram_mb (2 ^ 64 - 1) = Ok 17592186044416 /\
  (2 ^ 64 - 1) / 2 ^ 20 = 17592186044415 /\
  dram_mb (2 ^ 54 - 1) = Ok (2 ^ 34) /\
  (2 ^ 54 - 1) / 2 ^ 20 = 2 ^ 34 - 1 /\
  (exists info,
      get_bootrom_info example_check_output int_of_decimal bytes_literal
                       example_huge_mem example_environ example_timeStamp = Ok info /\
      occurs "DRAM Size:         17592186044416 MB" info = true) /\
  List.map dram_mb [0; 1; 2 ^ 20 - 1; 2 ^ 20; 0x20000000; 2 ^ 53 - 1]
  = List.map (fun memLen => Ok (memLen / 2 ^ 20))
             [0; 1; 2 ^ 20 - 1; 2 ^ 20; 0x20000000; 2 ^ 53 - 1].
Proof.
  repeat split; try (vm_compute; reflexivity).
  eexists. split; vm_compute; reflexivity.
Qed.

(** * Further properties *)

(** ** [_reg_fmt] *)

(** X1.  Round trip: for a 64-bit base and length, the field printed
    with two address cells and two size cells reads back as that base
    and that length. *)
Theorem reg_fmt_round_trip (addrBase addrLen : Z) :
  0 <= addrBase < 2 ^ 64 -> 0 <= addrLen < 2 ^ 64 ->
  exists field,
    _reg_fmt addrBase addrLen 2 2 = Ok field /\
    reg_decode field = Some (addrBase, addrLen).
Proof.
  intros Hb Hl. eexists. split; [apply reg_fmt_shape |].
  unfold reg_decode. rewrite tokens_reg_fmt, reg_cells_spec by lia.
  rewrite map_cell_value by now apply spec_cells_u32.
  cbn [spec_cells Z.eqb Z.geb Z.compare Pos.compare Pos.compare_cont app List.map].
  f_equal. f_equal.
  - rewrite (Z.div_mod addrBase (2 ^ 32)) at 3 by lia. ring.
  - rewrite (Z.div_mod addrLen (2 ^ 32)) at 3 by lia. ring.
Qed.

Lemma reg_fmt_round_trip_witness :
  exists field,
    _reg_fmt 0xfff0c2c000 0x1000 2 2 = Ok field /\
    reg_decode field = Some (0xfff0c2c000, 0x1000).
Proof. apply reg_fmt_round_trip; lia. Defined.

(** X2.  With one address cell and one size cell only the lower 32 bits
    are printed: bases (and lengths) that agree modulo [2^32] give the
    same field. *)
Theorem reg_fmt_one_cell_truncates (base base' len len' : Z) :
  base mod 2 ^ 32 = base' mod 2 ^ 32 -> len mod 2 ^ 32 = len' mod 2 ^ 32 ->
  _reg_fmt base len 1 1 = _reg_fmt base' len' 1 1.
Proof.
  intros Hb Hl. rewrite !reg_fmt_shape. unfold reg_cells.
  change 0xFFFFFFFF with (Z.ones 32). rewrite !Z.land_ones by lia.
  now rewrite Hb, Hl.
Qed.

Lemma reg_fmt_one_cell_truncates_witness :
  _reg_fmt 0xfff0c2c000 0x100001000 1 1 = _reg_fmt 0xf0c2c000 0x1000 1 1.
Proof. apply reg_fmt_one_cell_truncates; reflexivity. Defined.

Lemma length_spaced_cells (vs : list Z) :
  Forall (fun v => 0 <= v < 2 ^ 32) vs ->
  String.length (spaced (List.map cell vs)) = (11 * length vs)%nat.
Proof.
  induction 1 as [|v vs Hv Hvs IH]; [reflexivity |].
  cbn [List.map spaced fold_right length]. fold (spaced (List.map cell vs)).
  rewrite !length_append, IH. unfold cell. rewrite length_append.
  destruct (fmt_08x_u32 v Hv) as (-> & _). cbn [String.length]. lia.
Qed.

(** X3.  Fixed width: for cell counts in {0,1,2} and a 64-bit base and
    length the field has one character for the leading space and eleven
    per cell. *)
Theorem reg_fmt_length (addrBase addrLen addrCells sizeCells : Z) :
  0 <= addrBase < 2 ^ 64 -> 0 <= addrLen < 2 ^ 64 ->
  0 <= addrCells <= 2 -> 0 <= sizeCells <= 2 ->
  exists field,
    _reg_fmt addrBase addrLen addrCells sizeCells = Ok field /\
    Z.of_nat (String.length field) = 1 + 11 * (addrCells + sizeCells).
Proof.
  intros Hb Hl Ha Hs. eexists. split; [apply reg_fmt_shape |].
  rewrite reg_cells_spec by assumption.
  cbn [String.append String.length].
  rewrite length_spaced_cells by now apply spec_cells_u32.
  rewrite spec_cells_length by assumption. lia.
Qed.

Lemma reg_fmt_length_witness :
  exists field,
    _reg_fmt 0xfff0c2c000 0x1000 2 1 = Ok field /\
    Z.of_nat (String.length field) = 1 + 11 * (2 + 1).
Proof. apply reg_fmt_length; lia. Defined.

(** X4.  A cell count above 2 is treated as 2 and a count below 1 as 0:
    the field only depends on the counts through their clamping to
    0..2. *)
Theorem reg_fmt_clamps (addrBase addrLen addrCells sizeCells : Z) :
  _reg_fmt addrBase addrLen addrCells sizeCells
  = _reg_fmt addrBase addrLen (clamp_cells addrCells) (clamp_cells sizeCells).
Proof.
  rewrite !reg_fmt_shape. f_equal. f_equal. f_equal. unfold reg_cells, clamp_cells.
  assert (E : forall n k, 1 <= k <= 2 -> (Z.max 0 (Z.min 2 n) >=? k) = (n >=? k)).
  { intros n k Hk. rewrite !Z.geb_leb.
    destruct (Z.leb_spec k (Z.max 0 (Z.min 2 n))), (Z.leb_spec k n); lia. }
  now rewrite !E by lia.
Qed.

Lemma char_digit_nonneg (c : ascii) (d : Z) : char_digit c = Some d -> 0 <= d.
Proof.
  unfold char_digit. set (n := Z.of_nat (nat_of_ascii c)).
  destruct ((48 <=? n) && (n <=? 57)) eqn:E1.
  - intros [= <-]. apply andb_true_iff in E1 as [H _]. apply Z.leb_le in H. lia.
  - destruct ((97 <=? n) && (n <=? 102)) eqn:E2; [| discriminate].
    intros [= <-]. apply andb_true_iff in E2 as [H _]. apply Z.leb_le in H. lia.
Qed.

(** A digit string of length [k] reads as a number below [b^k]. *)
Lemma parse_digits_bound (b : Z) (s : string) : forall acc v,
  2 <= b -> 0 <= acc -> parse_digits b acc s = Some v ->
  v < (acc + 1) * b ^ Z.of_nat (String.length s).
Proof.
  induction s as [|c s IH]; intros acc v Hb Hacc H.
  - cbn in H. injection H as <-. cbn [String.length]. change (b ^ Z.of_nat 0) with 1. lia.
  - cbn [parse_digits] in H. destruct (char_digit c) as [d|] eqn:Ed; [| discriminate].
    apply char_digit_nonneg in Ed.
    destruct (Z.ltb_spec d b); [| discriminate].
    apply IH in H; [| lia | nia].
    cbn [String.length]. rewrite Nat2Z.inj_succ, Z.pow_succ_r by lia.
    assert (Hp : 0 < b ^ Z.of_nat (String.length s)) by (apply Z.pow_pos_nonneg; lia).
    nia.
Qed.

(** A value of [2^32] or more is printed with more than eight digits. *)
Lemma fmt_08x_wide (v : Z) : 2 ^ 32 <= v -> (8 < String.length (fmt_08x v))%nat.
Proof.
  intros Hv. unfold fmt_08x. destruct (Z.ltb_spec v 0); [lia |].
  rewrite lpad_length.
  pose proof (render_parse 16 ltac:(lia) v ltac:(lia) ltac:(lia)) as P.
  apply parse_digits_bound in P; [| lia | lia].
  destruct (Nat.le_gt_cases (String.length (render 16 v)) 8) as [Hle | Hgt]; [| lia].
  exfalso.
  assert (16 ^ Z.of_nat (String.length (render 16 v)) <= 16 ^ 8)
    by (apply Z.pow_le_mono_r; lia).
  change (16 ^ 8) with (2 ^ 32) in *. lia.
Qed.

(** X5.  No truncation: a base of [2^64] or more printed with two
    address cells gives a first token that is no cell of eight
    hexadecimal digits. *)
Theorem reg_fmt_wide_base (addrBase addrLen sizeCells : Z) :
  2 ^ 64 <= addrBase ->
  exists field t rest,
    _reg_fmt addrBase addrLen 2 sizeCells = Ok field /\
    tokens field = t :: rest /\
    cell_value t = None.
Proof.
  intros Hb. rewrite reg_fmt_shape. do 3 eexists. split; [reflexivity |].
  rewrite tokens_reg_fmt. unfold reg_cells.
  change (2 >=? 2) with true. cbn [app List.map]. split; [reflexivity |].
  unfold cell, cell_value. cbn [String.append].
  assert (Hw : (8 < String.length (fmt_08x (Z.shiftr addrBase 32)))%nat).
  { apply fmt_08x_wide. rewrite Z.shiftr_div_pow2 by lia.
    apply Z.div_le_lower_bound; lia. }
  destruct (Nat.eqb_spec (String.length (fmt_08x (Z.shiftr addrBase 32))) 8);
    [lia | reflexivity].
Qed.

Lemma reg_fmt_wide_base_witness :
  exists field t rest,
    _reg_fmt (2 ^ 64) 0x1000 2 2 = Ok field /\
    tokens field = t :: rest /\
    cell_value t = None.
Proof. apply reg_fmt_wide_base. lia. Defined.

(** ** [gen_riscv_dts] *)

Lemma known_names_spec (d : Device.t) :
  name_in known_names d = false ->
  named "mem" d = false /\ named "ariane_clint" d = false /\
  named "ariane_plic" d = false /\ named "uart" d = false /\
  named "sd" d = false /\ named "net" d = false.
Proof.
  unfold name_in, known_names, named. cbn [existsb]. intros H.
  repeat (apply orb_false_iff in H as [? H]). auto 10.
Qed.

Lemma unknown_no_lines (nCpus periphFreq numIrqs nr : Z) (d : Device.t) :
  name_in known_names d = false ->
  mem_lines d = [] /\ dev_lines nCpus periphFreq numIrqs nr d = [] /\
  next_nr nr d = nr /\ name_in devWithIrq d = false.
Proof.
  intros H. apply known_names_spec in H as (Hm & Hc & Hp & Hu & Hs & Hn).
  unfold mem_lines, dev_lines, next_nr. rewrite name_in_devWithIrq.
  now rewrite Hm, Hc, Hp, Hu, Hs, Hn.
Qed.

Lemma mem_lines_known (devices : list Device.t) :
  flat_map mem_lines (List.filter (name_in known_names) devices)
  = flat_map mem_lines devices.
Proof.
  induction devices as [|d r IH]; [reflexivity |].
  cbn [List.filter flat_map]. destruct (name_in known_names d) eqn:E.
  - cbn [flat_map]. now rewrite IH.
  - destruct (unknown_no_lines 0 0 0 0 d E) as (-> & _). exact IH.
Qed.

Lemma count_irqs_known (devices : list Device.t) :
  count_irqs (List.filter (name_in known_names) devices) = count_irqs devices.
Proof.
  rewrite !count_irqs_length. f_equal. f_equal.
  induction devices as [|d r IH]; [reflexivity |].
  cbn [List.filter]. destruct (name_in known_names d) eqn:E.
  - cbn [List.filter]. destruct (name_in devWithIrq d); [cbn [length] |]; now rewrite ?IH.
  - destruct (unknown_no_lines 0 0 0 0 d E) as (_ & _ & _ & ->). exact IH.
Qed.

Lemma periph_lines_known (nCpus periphFreq numIrqs : Z) (devices : list Device.t) :
  forall nr,
  periph_lines nCpus periphFreq numIrqs
               (number (List.filter (name_in known_names) devices) nr)
  = periph_lines nCpus periphFreq numIrqs (number devices nr).
Proof.
  unfold periph_lines.
  induction devices as [|d r IH]; intros nr; [reflexivity |].
  cbn [List.filter number flat_map fst snd]. destruct (name_in known_names d) eqn:E.
  - cbn [number flat_map fst snd]. now rewrite IH.
  - destruct (unknown_no_lines nCpus periphFreq numIrqs nr d E) as (_ & -> & -> & _).
    apply IH.
Qed.

Lemma gen_riscv_dts_asserts (devices : list Device.t)
    (nCpus cpuFreq timeBaseFreq periphFreq : Z) (timeStamp : string) :
  nCpus < 1 ->
  gen_riscv_dts devices nCpus cpuFreq timeBaseFreq periphFreq timeStamp
  = Raise AssertionError.
Proof.
  intros H. unfold gen_riscv_dts, dts_run.
  assert (E : (nCpus >=? 1) = false).
  { rewrite Z.geb_leb. apply Z.leb_gt. lia. }
  rewrite E. reflexivity.
Qed.

(** X6.  A device whose name is none of [mem], [ariane_clint],
    [ariane_plic], [uart], [sd], [net] is ignored: dropping such devices
    from the inventory changes neither the text nor the outcome. *)
Theorem unknown_devices_ignored (devices : list Device.t)
    (nCpus cpuFreq timeBaseFreq periphFreq : Z) (timeStamp : string) :
  gen_riscv_dts (List.filter (name_in known_names) devices)
                nCpus cpuFreq timeBaseFreq periphFreq timeStamp
  = gen_riscv_dts devices nCpus cpuFreq timeBaseFreq periphFreq timeStamp.
Proof.
  destruct (Z.lt_ge_cases nCpus 1) as [Hlt | Hge].
  - now rewrite !gen_riscv_dts_asserts.
  - rewrite !gen_riscv_dts_lines by exact Hge. f_equal. f_equal.
    unfold dts_lines.
    now rewrite mem_lines_known, count_irqs_known, periph_lines_known.
Qed.

(** X7.  [gen_riscv_dts] returns a text exactly when [nCpus >= 1];
    otherwise it raises an AssertionError, whatever the inventory. *)
Theorem gen_riscv_dts_returns_iff (devices : list Device.t)
    (nCpus cpuFreq timeBaseFreq periphFreq : Z) (timeStamp : string) :
  ((exists doc,
       gen_riscv_dts devices nCpus cpuFreq timeBaseFreq periphFreq timeStamp = Ok doc)
   <-> 1 <= nCpus) /\
  (gen_riscv_dts devices nCpus cpuFreq timeBaseFreq periphFreq timeStamp
   = Raise AssertionError
   <-> nCpus < 1).
Proof.
  destruct (Z.lt_ge_cases nCpus 1) as [Hlt | Hge].
  - rewrite (gen_riscv_dts_asserts _ _ _ _ _ _ Hlt). split; split.
    + intros (doc & H). discriminate H.
    + lia.
    + intros _. exact Hlt.
    + reflexivity.
  - rewrite (gen_riscv_dts_lines _ _ _ _ _ _ Hge). split; split.
    + intros _. exact Hge.
    + intros _. eexists. reflexivity.
    + discriminate.
    + lia.
Qed.

Ltac sel' :=
  unfold is_ndev, ndev_line, is_device_header, is_clint_header, is_sd_header,
    periph_headers, clint_header, sd_header;
  sel.

Ltac sel_dev' d :=
  unfold dev_lines, periph_headers;
  destruct (named "ariane_clint" d), (named "ariane_plic" d), (named "uart" d),
    (named "sd" d), (named "net" d);
  sel'.

Ltac sel_mem' d :=
  destruct (named "mem" d) eqn:E; unfold mem_lines; rewrite E; sel'.

Section MoreTemplateLines.
Variables (timeStamp : string) (timeBaseFreq cpuFreq k : Z).
Variables (nCpus periphFreq numIrqs nr : Z) (d : Device.t).

Lemma ndev_in_header : List.filter is_ndev (dts_header timeStamp timeBaseFreq) = [].
Proof. sel'. Qed.

Lemma ndev_in_cpu : List.filter is_ndev (cpu_lines cpuFreq k) = [].
Proof. sel'. Qed.

Lemma ndev_in_mem : List.filter is_ndev (mem_lines d) = [].
Proof. sel_mem' d. Qed.

Lemma ndev_in_dev :
  List.filter is_ndev (dev_lines nCpus periphFreq numIrqs nr d)
  = if named "ariane_plic" d then [ndev_line numIrqs] else [].
Proof. sel_dev' d. Qed.

Lemma device_header_in_header :
  List.filter is_device_header (dts_header timeStamp timeBaseFreq) = [].
Proof. sel'. Qed.

Lemma device_header_in_cpu : List.filter is_device_header (cpu_lines cpuFreq k) = [].
Proof. sel'. Qed.

Lemma device_header_in_mem :
  List.filter is_device_header (mem_lines d)
  = if named "mem" d then [memory_header d] else [].
Proof. sel_mem' d. Qed.

Lemma device_header_in_dev :
  List.filter is_device_header (dev_lines nCpus periphFreq numIrqs nr d)
  = periph_headers d.
Proof. sel_dev' d. Qed.
End MoreTemplateLines.

(** X8.  Every PLIC node declares as [riscv,ndev] the number of devices
    named [uart] or [net] in the whole inventory, wherever the PLIC
    entry stands in it. *)
Theorem plic_ndev_counts_irq_devices (devices : list Device.t)
    (nCpus cpuFreq timeBaseFreq periphFreq : Z) (timeStamp : string) :
  1 <= nCpus -> free_of LF timeStamp = true ->
  exists doc,
    gen_riscv_dts devices nCpus cpuFreq timeBaseFreq periphFreq timeStamp = Ok doc /\
    select is_ndev doc
    = List.map (fun _ => ndev_line
                  (Z.of_nat (length (List.filter (name_in devWithIrq) devices))))
               (List.filter (named "ariane_plic") devices).
Proof.
  intros Hn Hts.
  destruct (gen_riscv_dts_select devices nCpus cpuFreq timeBaseFreq periphFreq
              timeStamp Hn Hts) as (doc & Hdoc & Hlines).
  exists doc. split; [exact Hdoc |]. unfold select. rewrite Hlines.
  rewrite filter_dts_lines, ndev_in_header.
  rewrite (flat_map_nil (fun k => List.filter _ (cpu_lines _ k))) by apply ndev_in_cpu.
  rewrite (flat_map_nil (fun d => List.filter _ (mem_lines d))) by apply ndev_in_mem.
  rewrite (flat_map_ext _ _ (fun dn => ndev_in_dev _ _ _ (snd dn) (fst dn))).
  rewrite (flat_map_number
             (fun d => if named "ariane_plic" d
                       then [ndev_line (count_irqs devices)] else [])).
  rewrite (flat_map_filter_map (named "ariane_plic")
             (fun _ => ndev_line (count_irqs devices))).
  rewrite count_irqs_length. cbn [app]. now rewrite app_nil_r.
Qed.

Lemma plic_ndev_counts_irq_devices_witness :
  exists doc,
    gen_riscv_dts example_devices 2 50000000 390625 50000000 example_timeStamp
    = Ok doc /\
    select is_ndev doc
    = List.map (fun _ => ndev_line
                  (Z.of_nat (length (List.filter (name_in devWithIrq) example_devices))))
               (List.filter (named "ariane_plic") example_devices).
Proof. apply plic_ndev_counts_irq_devices; [lia | reflexivity]. Defined.

(** X9.  Node order: the memory nodes come first, in inventory order,
    then the peripheral nodes in inventory order, whatever the place of
    the [mem] entries in the inventory. *)
Theorem memory_nodes_before_peripherals (devices : list Device.t)
    (nCpus cpuFreq timeBaseFreq periphFreq : Z) (timeStamp : string) :
  1 <= nCpus -> free_of LF timeStamp = true ->
  exists doc,
    gen_riscv_dts devices nCpus cpuFreq timeBaseFreq periphFreq timeStamp = Ok doc /\
    select is_device_header doc
    = (List.map memory_header (List.filter (named "mem") devices) ++
       flat_map periph_headers devices)%list.
Proof.
  intros Hn Hts.
  destruct (gen_riscv_dts_select devices nCpus cpuFreq timeBaseFreq periphFreq
              timeStamp Hn Hts) as (doc & Hdoc & Hlines).
  exists doc. split; [exact Hdoc |]. unfold select. rewrite Hlines.
  rewrite filter_dts_lines, device_header_in_header.
  rewrite (flat_map_nil (fun k => List.filter _ (cpu_lines _ k)))
    by apply device_header_in_cpu.
  rewrite (flat_map_ext _ _ device_header_in_mem), flat_map_filter_map.
  rewrite (flat_map_ext _ _ (fun dn => device_header_in_dev _ _ _ (snd dn) (fst dn))).
  rewrite (flat_map_number periph_headers).
  cbn [app]. now rewrite app_nil_r.
Qed.

Lemma memory_nodes_before_peripherals_witness :
  exists doc,
    gen_riscv_dts example_no_plic 2 50000000 390625 50000000 example_timeStamp
    = Ok doc /\
    select is_device_header doc
    = (List.map memory_header (List.filter (named "mem") example_no_plic) ++
       flat_map periph_headers example_no_plic)%list.
Proof. apply memory_nodes_before_peripherals; [lia | reflexivity]. Defined.

Ltac sel_freq :=
  unfold is_frequency, is_timebase, is_clock, timebase_line, clock_line; sel.

Section FrequencyLines.
Variables (timeStamp : string) (timeBaseFreq cpuFreq k : Z).
Variables (nCpus periphFreq numIrqs nr : Z) (d : Device.t).

Lemma frequency_in_header :
  List.filter is_frequency (dts_header timeStamp timeBaseFreq)
  = [timebase_line timeBaseFreq].
Proof. sel_freq. Qed.

Lemma frequency_in_cpu :
  List.filter is_frequency (cpu_lines cpuFreq k) = [clock_line cpuFreq].
Proof. sel_freq. Qed.

Lemma frequency_in_mem : List.filter is_frequency (mem_lines d) = [].
Proof. destruct (named "mem" d) eqn:E; unfold mem_lines; rewrite E; sel_freq. Qed.

Lemma frequency_in_dev :
  List.filter is_frequency (dev_lines nCpus periphFreq numIrqs nr d)
  = if named "uart" d then [clock_line periphFreq] else [].
Proof.
  unfold dev_lines;
  destruct (named "ariane_clint" d), (named "ariane_plic" d), (named "uart" d),
    (named "sd" d), (named "net" d);
  sel_freq.
Qed.
End FrequencyLines.

(** X10.  The frequencies of the tree: the time base once, in the
    [cpus] node; [cpuFreq] as the clock of each CPU; [periphFreq] as the
    clock of each UART; no other node gives a frequency. *)
Theorem frequencies_of_the_tree (devices : list Device.t)
    (nCpus cpuFreq timeBaseFreq periphFreq : Z) (timeStamp : string) :
  1 <= nCpus -> free_of LF timeStamp = true ->
  exists doc,
    gen_riscv_dts devices nCpus cpuFreq timeBaseFreq periphFreq timeStamp = Ok doc /\
    select is_frequency doc
    = (timebase_line timeBaseFreq ::
       List.map (fun _ => clock_line cpuFreq) (range nCpus) ++
       List.map (fun _ => clock_line periphFreq)
                (List.filter (named "uart") devices))%list.
Proof.
  intros Hn Hts.
  destruct (gen_riscv_dts_select devices nCpus cpuFreq timeBaseFreq periphFreq
              timeStamp Hn Hts) as (doc & Hdoc & Hlines).
  exists doc. split; [exact Hdoc |]. unfold select. rewrite Hlines.
  rewrite filter_dts_lines, frequency_in_header.
  rewrite (flat_map_singleton _ (fun _ => clock_line cpuFreq))
    by (intros; apply frequency_in_cpu).
  rewrite (flat_map_nil (fun d => List.filter _ (mem_lines d)))
    by apply frequency_in_mem.
  rewrite (flat_map_ext _ _ (fun dn => frequency_in_dev _ _ _ (snd dn) (fst dn))).
  rewrite (flat_map_number
             (fun d => if named "uart" d then [clock_line periphFreq] else [])).
  rewrite (flat_map_filter_map (named "uart") (fun _ => clock_line periphFreq)).
  cbn [app]. now rewrite app_nil_r.
Qed.

Lemma frequencies_of_the_tree_witness :
  exists doc,
    gen_riscv_dts example_devices 2 50000000 390625 50000000 example_timeStamp
    = Ok doc /\
    select is_frequency doc
    = (timebase_line 390625 ::
       List.map (fun _ => clock_line 50000000) (range 2) ++
       List.map (fun _ => clock_line 50000000)
                (List.filter (named "uart") example_devices))%list.
Proof. apply frequencies_of_the_tree; [lia | reflexivity]. Defined.

(** ** [get_bootrom_info], further *)

Lemma environ_kb_value py_int environ key (n : Z) :
  environ_int py_int environ key = Ok n -> 0 <= n < 2 ^ 53 ->
  exists x, environ_kb py_int environ key = Ok x /\ int_of_float x = Ok (n / 1024).
Proof.
  intros E Hn. destruct (kb_exact n Hn) as (x & Ex & Ei).
  exists x. unfold environ_kb. rewrite E. cbn [mbind result_bind]. now split.
Qed.

(** X11.  The text of [info.h]: the first eight bytes of each version,
    the board, the settings as the environment gives them, the memory in
    whole megabytes and the cache sizes in whole kilobytes, rounded
    down, for sizes below [2^53]. *)
Theorem bootrom_info_text (check_output : string -> result string)
    (py_int : string -> result Z) (str_of_bytes : string -> string)
    (devices : list Device.t) (environ : gmap string string)
    (timeStamp pv root av label : string) (c : settings) :
  check_output gitver_cmd = Ok pv ->
  environ !! "ARIANE_ROOT" = Some root ->
  check_output ("cd " +:+ root +:+ " && " +:+ gitver_cmd) = Ok av ->
  sysFreq_label py_int environ = Ok label ->
  reads_settings py_int environ c ->
  0 <= scan_memLen devices < 2 ^ 53 ->
  get_bootrom_info check_output py_int str_of_bytes devices environ timeStamp
  = Ok (text (banner timeStamp
                (str_of_bytes (String.substring 0 8 pv))
                (str_of_bytes (String.substring 0 8 av))
                (board_name environ)
                (x_tiles c) (y_tiles c) (num_tiles c) label (network c)
                (scan_memLen devices / 2 ^ 20)
                (l1i_size c / 1024) (l1i_assoc c)
                (l1d_size c / 1024) (l1d_assoc c)
                (l15_size c / 1024) (l15_assoc c)
                (l2_size c / 1024) (l2_assoc c))).
Proof.
  intros Hpv Hroot Hav Hlabel
         (Hx & Hy & Hn & Hnet & Hl1i & Hl1ia & Hl1d & Hl1da & Hl15 & Hl15a &
          Hl2 & Hl2a & Hsizes) Hmem.
  inversion Hsizes as [|? ? S1 Hs1]; subst. inversion Hs1 as [|? ? S2 Hs2]; subst.
  inversion Hs2 as [|? ? S3 Hs3]; subst. inversion Hs3 as [|? ? S4 _]; subst.
  destruct (environ_kb_value _ _ _ _ Hl1i S1) as (k1 & K1 & I1).
  destruct (environ_kb_value _ _ _ _ Hl1d S2) as (k2 & K2 & I2).
  destruct (environ_kb_value _ _ _ _ Hl15 S3) as (k3 & K3 & I3).
  destruct (environ_kb_value _ _ _ _ Hl2 S4) as (k4 & K4 & I4).
  unfold get_bootrom_info, environ_get.
  rewrite Hpv, Hroot. cbn [mbind result_bind]. rewrite Hav, Hlabel.
  cbn [mbind result_bind]. rewrite Hx, Hy, Hn, Hnet. cbn [mbind result_bind].
  rewrite (dram_mb_exact _ Hmem). cbn [mbind result_bind].
  rewrite K1, Hl1ia, K2, Hl1da, K3, Hl15a, K4, Hl2a. cbn [mbind result_bind].
  rewrite I1, I2, I3, I4. reflexivity.
Qed.

Lemma example_reads_settings :
  reads_settings int_of_decimal example_environ example_settings.
Proof.
  unfold reads_settings.
  repeat (split; [vm_compute; reflexivity |]).
  repeat first [apply List.Forall_nil | apply List.Forall_cons];
    cbn [l1i_size l1d_size l15_size l2_size example_settings]; lia.
Defined.

Lemma bootrom_info_text_witness :
  get_bootrom_info example_check_output int_of_decimal bytes_literal
                   example_devices example_environ example_timeStamp
  = Ok (text (banner example_timeStamp "b'01234567'" "b'01234567'"
                "None (Simulation)" 1 1 1 "Unknown" "xbar_config" 512
                16 4 8 4 8 4 64 4)).
Proof.
  assert (E : scan_memLen example_devices = 0x20000000) by (vm_compute; reflexivity).
  refine (bootrom_info_text example_check_output int_of_decimal bytes_literal
            example_devices example_environ example_timeStamp
            "0123456789abcdef0123456789abcdef01234567"
            "/openpiton/piton/design/chip/tile/ariane"
            "0123456789abcdef0123456789abcdef01234567"
            "Unknown" example_settings _ _ _ _ example_reads_settings _).
  - reflexivity.
  - vm_compute; reflexivity.
  - reflexivity.
  - vm_compute; reflexivity.
  - rewrite E. lia.
Defined.

Lemma environ_get_unset environ key (v : string) :
  environ !! key = None -> environ_get environ key <> Ok v.
Proof. intros H. unfold environ_get. now rewrite H. Qed.

Lemma environ_int_unset py_int environ key (n : Z) :
  environ !! key = None -> environ_int py_int environ key <> Ok n.
Proof. intros H. unfold environ_int, environ_get. now rewrite H. Qed.

Lemma environ_kb_unset py_int environ key (x : spec_float) :
  environ !! key = None -> environ_kb py_int environ key <> Ok x.
Proof. intros H. unfold environ_kb, environ_int, environ_get. now rewrite H. Qed.

(** X12.  Each of the thirteen variables read with [os.environ[...]] is
    required: when one of them is unset, [get_bootrom_info] raises and
    returns no text, whatever the other inputs. *)
Theorem bootrom_info_needs_variables (check_output : string -> result string)
    (py_int : string -> result Z) (str_of_bytes : string -> string)
    (devices : list Device.t) (environ : gmap string string)
    (timeStamp key : string) :
  In key required_vars -> environ !! key = None ->
  exists e,
    get_bootrom_info check_output py_int str_of_bytes devices environ timeStamp
    = Raise e.
Proof.
  intros Hkey Hnone.
  destruct (get_bootrom_info check_output py_int str_of_bytes devices environ
              timeStamp) as [info | e] eqn:H; [exfalso | now exists e].
  unfold get_bootrom_info in H. ok_steps H.
  unfold required_vars in Hkey. cbn [In] in Hkey.
  repeat match goal with
         | Hk : _ \/ _ |- _ => destruct Hk as [<- | Hk]
         | Hk : False |- _ => destruct Hk
         end;
    match goal with
    | E : environ_get _ ?k = Ok _, N : _ !! ?k = None |- _ =>
        exact (environ_get_unset _ _ _ N E)
    | E : environ_int _ _ ?k = Ok _, N : _ !! ?k = None |- _ =>
        exact (environ_int_unset _ _ _ _ N E)
    | E : environ_kb _ _ ?k = Ok _, N : _ !! ?k = None |- _ =>
        exact (environ_kb_unset _ _ _ _ N E)
    end.
Qed.

Lemma bootrom_info_needs_variables_witness :
  exists e,
    get_bootrom_info example_check_output int_of_decimal bytes_literal
                     example_devices (delete "CONFIG_L2_SIZE" example_environ)
                     example_timeStamp
    = Raise e.
Proof.
  apply (bootrom_info_needs_variables _ _ _ _ _ _ "CONFIG_L2_SIZE").
  - unfold required_vars. cbn [In]. do 11 right. left. reflexivity.
  - vm_compute; reflexivity.
Defined.

(** ** [main] *)



Section MainRuns.
Variable check_output : string -> result string.
Variable py_int : string -> result Z.
Variable str_of_bytes : string -> string.
Variables (devices : list Device.t) (PITON_NUM_TILES : Z).
Variables (environ : gmap string string) (timeStamp : string).
Variable files : gmap string string.


End MainRuns.





(** X15.  [main] writes nothing when it fails early: if CONFIG_SYS_FREQ
    is not a number, or [DV_ROOT] is unset, or there is no tile, [main]
    ends with an exception and the files are as they were. *)
Theorem main_fails_early (check_output : string -> result string)
    (py_int : string -> result Z) (str_of_bytes : string -> string)
    (devices : list Device.t) (PITON_NUM_TILES : Z)
    (environ : gmap string string) (timeStamp : string)
    (files : gmap string string) :
  (exists e, main_sysFreq py_int environ = Raise e) \/
  environ !! "DV_ROOT" = None \/
  PITON_NUM_TILES < 1 ->
  exists e,
    main check_output py_int str_of_bytes devices PITON_NUM_TILES environ timeStamp
         files
    = (files, Raise e).
Proof.
  intros H.
  unfold main, gen_riscv_dts_io, environ_get.
  unfold mbind at 1 2 3 4 5, io_mbind, io_bind, lift.
  destruct (main_sysFreq py_int environ) as [n | e0]; [| now exists e0].
  destruct (int_truediv n 128) as [x | e1]; [| now exists e1].
  destruct (environ !! "DV_ROOT") as [root |].
  - destruct H as [(e & He) | [Hr | Ht]]; [discriminate He | discriminate Hr |].
    unfold assert. destruct (Z.geb_spec PITON_NUM_TILES 1); [lia |].
    now exists AssertionError.
  - now exists (KeyError "DV_ROOT").
Qed.

Lemma main_fails_early_witness :
  exists e,
    main example_check_output int_of_decimal bytes_literal example_devices 2
         example_environ example_timeStamp ∅
    = (∅, Raise e).
Proof.
  apply main_fails_early. right. left. vm_compute; reflexivity.
Defined.


